(** * Apt Bill Manager front-end: handlers of AptBillManagerFrontend.jsx

    A shallow embedding of the logic of [src/frontend/AptBillManagerFrontend.jsx]:
    the fetch wrapper [apiCall], the event handlers of the Login, Settings,
    Dashboard and Registration components, the start-up and routing effects
    of [App] and the notification banner.

    Conventions of the embedding.
    - A JavaScript value is a tree of type [value] (what [JSON.parse]
      builds, plus [undefined]).  Numbers are integers (ids and counts of
      the API): [VNum n] is the number n for an n of magnitude below 2^53,
      the range in which a JavaScript number holds every integer and prints
      it in decimal ([safe_integers]).
    - A handler is a computation in the monad [M S]: it reads and writes the
      hook state [S] of its component and the [World] (the state of [App],
      [localStorage], the log of requests sent, the clock and the banner's
      timeouts), and it may throw.  State written before a throw stays
      written, as in JavaScript.
    - A render is a function of the hook state that gives what the
      component returns, or the error it throws.  The file uses the icons
      [LogOut] (line 656) and [Plus] (line 320) without importing them
      (lines 2-5): evaluating either name throws a ReferenceError, so the
      render of [App] throws whenever the token is truthy ([App.render])
      and the render of [SettingsComponent] throws always
      ([Settings.render]).  The file has no error boundary: a render that
      throws leaves nothing on the screen and runs no effect.  The
      handlers are functions of their own and are stated as such.
    - The network and the user's answer to [window.confirm] are the
      environment [Env].  An [await] is a bind: the handler runs on with the
      response the environment gives to the request.
    - A [useState] setter applies at once; a handler reads the variables of
      the render that created it from the state it is started in. *)

From Stdlib Require Import ZArith DecimalString Ascii.
From stdpp Require Import gmap strings list.

Open Scope Z_scope.

(** ** JavaScript values *)

#[local] Set Warnings "-register-all".

Inductive value : Type :=
| VUndefined
| VNull
| VBool (b : bool)
| VNum (n : Z)
| VStr (s : string)
| VArr (elems : list value)
| VObj (fields : list (string * value)).

(** Thrown values: every value this program throws or receives in a
    [catch] is an Error object, of which only [message] is read. *)
Module Exn.
Record t : Type := mk { name : string; message : string }.
End Exn.
Abbreviation exn := Exn.t.

Inductive result (A : Type) : Type :=
| Ok (a : A)
| Throw (e : exn).
Arguments Ok {A} a.
Arguments Throw {A} e.

(** [new Error(msg)] with a string argument. *)
Definition Error (msg : string) : exn := Exn.mk "Error" msg.

(** The error of evaluating an identifier that nothing declares. *)
Definition ReferenceError (identifier : string) : exn :=
  Exn.mk "ReferenceError" (identifier +:+ " is not defined").

(** ToBoolean: the test of [if (x)], [!x], [x || y], [x && y]. *)
Definition truthy (v : value) : bool :=
  match v with
  | VUndefined | VNull => false
  | VBool b => b
  | VNum n => negb (n =? 0)
  | VStr s => negb (String.eqb s "")
  | VArr _ | VObj _ => true
  end.

(** [a || b] *)
Definition js_or (a b : value) : value := if truthy a then a else b.

(** ToString, as a template literal, [new Error(x)] and
    [localStorage.setItem] apply it.  An array joins its elements with
    commas, [null] and [undefined] elements printing as nothing.  A number
    is printed in decimal, which is its JavaScript text on the integers of
    [safe_integers]. *)
Fixpoint ToString (v : value) : string :=
  match v with
  | VUndefined => "undefined"
  | VNull => "null"
  | VBool true => "true"
  | VBool false => "false"
  | VNum n => NilZero.string_of_int (Z.to_int n)
  | VStr s => s
  | VArr elems =>
      (fix join (l : list value) : string :=
         match l with
         | [] => ""
         | x :: rest =>
             let sx := match x with
                       | VUndefined | VNull => ""
                       | _ => ToString x
                       end in
             match rest with
             | [] => sx
             | _ :: _ => sx +:+ "," +:+ join rest
             end
         end) elems
  | VObj _ => "[object Object]"
  end.



(** The first binding of a key in the fields of an object. *)
Fixpoint assoc (p : string) (fields : list (string * value)) : option value :=
  match fields with
  | [] => None
  | (k, v) :: rest => if String.eqb k p then Some v else assoc p rest
  end.

(** The message of the TypeError of a property read on [null] or
    [undefined]. *)
Definition TypeError_read (v : value) (p : string) : exn :=
  Exn.mk "TypeError"
    ("Cannot read properties of " +:+ ToString v +:+ " (reading '" +:+ p +:+ "')").

(** The property read [v.p], for a name [p] that no built-in prototype
    defines (the names read in this file: detail, access_token, email, id,
    phone_number, notifications_ready). *)
Definition get_field (v : value) (p : string) : result value :=
  match v with
  | VUndefined | VNull => Throw (TypeError_read v p)
  | VObj fields => Ok (default VUndefined (assoc p fields))
  | VBool _ | VNum _ | VStr _ | VArr _ => Ok VUndefined
  end.

(** [a === b] where one side is a primitive or both sides are one object
    (a variable compared with itself, a hook state compared with itself).
    Primitives are equal when they have one type and one value; an array
    or an object is equal to itself only, and a [value], the tree that
    [JSON.parse] built, is compared structurally. *)
Fixpoint strict_eq (a b : value) : bool :=
  match a, b with
  | VUndefined, VUndefined => true
  | VNull, VNull => true
  | VBool x, VBool y => Bool.eqb x y
  | VNum x, VNum y => x =? y
  | VStr x, VStr y => String.eqb x y
  | VArr xs, VArr ys =>
      (fix go (l : list value) (r : list value) : bool :=
         match l, r with
         | [], [] => true
         | x :: l', y :: r' => strict_eq x y && go l' r'
         | _, _ => false
         end) xs ys
  | VObj xs, VObj ys =>
      (fix go (l : list (string * value)) (r : list (string * value)) : bool :=
         match l, r with
         | [], [] => true
         | (k, x) :: l', (k', y) :: r' =>
             String.eqb k k' && strict_eq x y && go l' r'
         | _, _ => false
         end) xs ys
  | _, _ => false
  end.

Definition is_primitive (v : value) : bool :=
  match v with
  | VArr _ | VObj _ => false
  | VUndefined | VNull | VBool _ | VNum _ | VStr _ => true
  end.

(** [a === b] where the two sides come from different places (two
    responses, or a response and the form) and so are never one object: an
    array or an object is then equal to nothing. *)
Definition strict_eq_apart (a b : value) : bool :=
  is_primitive a && strict_eq a b.

(** [\d] of a JavaScript regular expression: the ten ASCII digits. *)
Definition is_digit (c : ascii) : bool :=
  (48 <=? Z.of_N (N_of_ascii c)) && (Z.of_N (N_of_ascii c) <=? 57).

Fixpoint string_filter (f : ascii -> bool) (s : string) : string :=
  match s with
  | EmptyString => EmptyString
  | String c rest =>
      if f c then String c (string_filter f rest) else string_filter f rest
  end.

Fixpoint string_forall (f : ascii -> bool) (s : string) : bool :=
  match s with
  | EmptyString => true
  | String c rest => f c && string_forall f rest
  end.

(** [s.replace(/[^\d]/g, '')] *)
Definition strip_non_digits (s : string) : string := string_filter is_digit s.

(** ** Requests and responses *)

Record File : Type := mkFile { file_name : string; file_content : string }.

(** The [body] argument of [apiCall]: a FormData (its entries) or any
    other value, [null] included. *)
Inductive api_body : Type :=
| BValue (v : value)
| BForm (entries : list (string * File)).

(** The [body] of the fetch configuration.  [SendJson v] is the text
    [JSON.stringify(v)], kept as the value it serialises. *)
Inductive sent_body : Type :=
| SendNull
| SendJson (v : value)
| SendForm (entries : list (string * File)).

Record Request : Type := mkRequest {
  url : string;
  method : string;
  headers : gmap string string;
  body : sent_body
}.

(** A Response: [ok] is derived from [status] as the fetch standard
    defines it; [json] is what [response.json()] settles to, a thrown
    SyntaxError when the body is not JSON text. *)
Record Response : Type := mkResponse {
  status : Z;
  statusText : string;
  json : result value
}.

Definition ok (r : Response) : bool := (200 <=? status r) && (status r <=? 299).

Definition API_BASE_URL : string := "http://localhost:8000/api/v1".

(** Lines 22-37 of [apiCall]: the request that is handed to [fetch]. *)
Definition apiCall_request (endpoint meth : string) (b : api_body) (token : value)
  : Request :=
  let headers : gmap string string := ∅ in
  let headers :=
    match b with
    | BForm _ => headers
    | BValue _ => <["Content-Type" := "application/json"]> headers
    end in
  let headers :=
    if truthy token
    then <["Authorization" := "Bearer " +:+ ToString token]> headers
    else headers in
  {| url := API_BASE_URL +:+ endpoint;
     method := meth;
     headers := headers;
     body := match b with
             | BForm entries => SendForm entries
             | BValue v => if truthy v then SendJson v else SendNull
             end |}.

(** Lines 41-52 of [apiCall]: what the call settles to once [fetch] has
    resolved to [response]. *)
Definition apiCall_settle (response : Response) : result value :=
  if status response =? 204 then Ok VNull
  else
    match json response with
    | Throw e => Throw e
    | Ok data =>
        if negb (ok response) then
          match get_field data "detail" with
          | Throw e => Throw e
          | Ok detail =>
              Throw (Error (ToString
                (js_or detail (VStr ("API Error: " +:+ statusText response)))))
          end
        else Ok data
    end.

(** ** The world the handlers run in *)

(** The [{type, text}] pair of the notification banner. *)
Record Message : Type := mkMessage { type : string; text : string }.

Inductive Page : Type := PageLogin | PageDashboard | PageSettings | PageRegister.

(** The hook state of [App] (lines 562-566). *)
Record AppState : Type := mkApp {
  token : value;
  currentPage : Page;
  memberEmail : value;
  message : Message;
  isAuthLoading : bool
}.

(** [localStorage], the requests handed to [fetch] so far (oldest first),
    the clock in milliseconds, and the timeouts of the banner that are
    pending, by their due times: [timer] is the one that the last run of
    the banner's effect has set and that its clean-up will cancel, [stale]
    are those that no clean-up will cancel any more. *)
Record World : Type := mkWorld {
  appState : AppState;
  localStorage : gmap string string;
  requests : list Request;
  now : Z;
  timer : option Z;
  stale : list Z
}.

(** The environment: the outcome of each [fetch], given the requests sent
    up to and including it ([Throw] when the promise rejects), and the
    user's answer to each [window.confirm] prompt. *)
Record Env : Type := mkEnv {
  net : list Request -> result Response;
  confirm : string -> bool
}.

Definition with_app (f : AppState -> AppState) (w : World) : World :=
  mkWorld (f (appState w)) (localStorage w) (requests w) (now w) (timer w)
    (stale w).
Definition with_localStorage (f : gmap string string -> gmap string string)
  (w : World) : World :=
  mkWorld (appState w) (f (localStorage w)) (requests w) (now w) (timer w)
    (stale w).
Definition with_requests (f : list Request -> list Request) (w : World) : World :=
  mkWorld (appState w) (localStorage w) (f (requests w)) (now w) (timer w)
    (stale w).
Definition with_now (t : Z) (w : World) : World :=
  mkWorld (appState w) (localStorage w) (requests w) t (timer w) (stale w).
Definition with_timer (d : option Z) (w : World) : World :=
  mkWorld (appState w) (localStorage w) (requests w) (now w) d (stale w).
Definition with_timers (d : option Z) (l : list Z) (w : World) : World :=
  mkWorld (appState w) (localStorage w) (requests w) (now w) d l.

Definition put_token (v : value) (a : AppState) : AppState :=
  mkApp v (currentPage a) (memberEmail a) (message a) (isAuthLoading a).
Definition put_currentPage (p : Page) (a : AppState) : AppState :=
  mkApp (token a) p (memberEmail a) (message a) (isAuthLoading a).
Definition put_memberEmail (v : value) (a : AppState) : AppState :=
  mkApp (token a) (currentPage a) v (message a) (isAuthLoading a).
Definition put_message (m : Message) (a : AppState) : AppState :=
  mkApp (token a) (currentPage a) (memberEmail a) m (isAuthLoading a).
Definition put_isAuthLoading (b : bool) (a : AppState) : AppState :=
  mkApp (token a) (currentPage a) (memberEmail a) (message a) b.

(** ** The notification banner (lines 57-77) *)

Record Banner : Type := mkBanner { banner_is_error : bool; banner_text : string }.

Definition no_message : Message := mkMessage "" "".

(** The delay of the banner's [setTimeout], in milliseconds. *)
Definition BANNER_DELAY : Z := 5000.

(** What [Notification] renders: nothing when the text is empty. *)
Definition Notification (m : Message) : option Banner :=
  if negb (truthy (VStr (text m))) then None
  else Some (mkBanner (String.eqb (type m) "error") (text m)).

(** What the render of [Notification] that follows a [setMessage] does
    to the timeouts.  With a text, the hook of line 63 runs: every
    [setMessage] stores a new object, so the dependency has changed, the
    clean-up of the previous run cancels its timeout and a new one is set,
    due [BANNER_DELAY] from now.  With an empty text the component returns
    at line 58, before the hook: no clean-up runs, a timeout that was
    pending stays pending, and as the next render with a text mounts the
    hook afresh, nothing will cancel it. *)
Definition Notification_effect (w : World) : World :=
  match Notification (message (appState w)) with
  | None =>
      with_timers None
        (stale w ++ match timer w with Some d => [d] | None => [] end) w
  | Some _ => with_timer (Some (now w + BANNER_DELAY)) w
  end.

Definition world_setMessage (m : Message) (w : World) : World :=
  Notification_effect (with_app (put_message m) w).

(** [onClick] of the banner's dismiss button (line 72). *)
Definition Notification_dismiss (w : World) : World :=
  world_setMessage no_message w.

(** The clock moves to [t]; each pending timeout that is due runs its
    callback [setMessage({type: '', text: ''})] and is pending no more. *)
Definition advance (t : Z) (w : World) : World :=
  let w := with_now (Z.max (now w) t) w in
  let due d := d <=? now w in
  let own := match timer w with Some d => due d | None => false end in
  if own || existsb due (stale w) then
    world_setMessage no_message
      (with_timers (if own then None else timer w)
         (List.filter (fun d => negb (due d)) (stale w)) w)
  else w.

(** ** The handler monad *)

Definition M (S A : Type) : Type := S -> World -> result A * S * World.

#[global] Instance M_ret {S} : MRet (M S) := fun A a s w => (Ok a, s, w).
#[global] Instance M_bind {S} : MBind (M S) := fun A B f c s w =>
  match c s w with
  | (Ok a, s', w') => f a s' w'
  | (Throw e, s', w') => (Throw e, s', w')
  end.

Definition throw {S A} (e : exn) : M S A := fun s w => (Throw e, s, w).
Definition lift_result {S A} (r : result A) : M S A := fun s w => (r, s, w).
Definition getState {S} : M S S := fun s w => (Ok s, s, w).
Definition modifyState {S} (f : S -> S) : M S unit := fun s w => (Ok tt, f s, w).
Definition getWorld {S} : M S World := fun s w => (Ok w, s, w).
Definition modifyWorld {S} (f : World -> World) : M S unit :=
  fun s w => (Ok tt, s, f w).

(** [try { body } catch (error) { handler } finally { fin }] *)
Definition try_catch_finally {S A} (body : M S A) (handler : exn -> M S A)
  (fin : M S unit) : M S A := fun s w =>
  let '(r, s1, w1) :=
    match body s w with
    | (Ok a, s1, w1) => (Ok a, s1, w1)
    | (Throw e, s1, w1) => handler e s1 w1
    end in
  match fin s1 w1 with
  | (Ok _, s2, w2) => (r, s2, w2)
  | (Throw e, s2, w2) => (Throw e, s2, w2)
  end.

(** The setters and storage calls that [App] hands down as props. *)
Definition setToken {S} (v : value) : M S unit := modifyWorld (with_app (put_token v)).
Definition setMemberEmail {S} (v : value) : M S unit :=
  modifyWorld (with_app (put_memberEmail v)).
Definition setPage {S} (p : Page) : M S unit :=
  modifyWorld (with_app (put_currentPage p)).
Definition setIsAuthLoading {S} (b : bool) : M S unit :=
  modifyWorld (with_app (put_isAuthLoading b)).
Definition setMessage {S} (m : Message) : M S unit := modifyWorld (world_setMessage m).

Definition localStorage_getItem {S} (k : string) : M S value :=
  w ← getWorld;
  mret (match localStorage w !! k with Some v => VStr v | None => VNull end).
Definition localStorage_setItem {S} (k : string) (v : value) : M S unit :=
  modifyWorld (with_localStorage (<[k := ToString v]>)).
Definition localStorage_removeItem {S} (k : string) : M S unit :=
  modifyWorld (with_localStorage (delete k)).

Section Network.
Variable env : Env.

(** [fetch(url, config)]: the request joins the log and the promise
    settles to what the environment answers. *)
Definition fetch {S} (q : Request) : M S (result Response) := fun s w =>
  let log := requests w ++ [q] in
  (Ok (net env log), s, with_requests (fun _ => log) w).

(** [apiCall] up to its first [await]: the request is sent. *)
Definition apiCall_send {S} (endpoint meth : string) (b : api_body) (tok : value)
  : M S (result Response) :=
  fetch (apiCall_request endpoint meth b tok).

(** [apiCall] from its first [await] on. *)
Definition apiCall_await {S} (pending : result Response) : M S value :=
  response ← lift_result pending;
  lift_result (apiCall_settle response).

(** [await apiCall(endpoint, method, body, token)] (lines 21-53). *)
Definition apiCall {S} (endpoint meth : string) (b : api_body) (tok : value)
  : M S value :=
  pending ← apiCall_send endpoint meth b tok;
  apiCall_await pending.

Definition window_confirm {S} (prompt : string) : M S bool :=
  mret (confirm env prompt).
End Network.

(** ** LoginComponent (lines 82-184) *)

Module Login.
Record State : Type := mk {
  email : string;
  otpMode : bool;
  otp : string;
  isLoading : bool
}.

Definition initial : State := mk "" false "" false.

Definition setEmail (v : string) : M State unit :=
  modifyState (fun s => mk v (otpMode s) (otp s) (isLoading s)).
Definition setOtpMode (b : bool) : M State unit :=
  modifyState (fun s => mk (email s) b (otp s) (isLoading s)).
Definition setOtp (v : string) : M State unit :=
  modifyState (fun s => mk (email s) (otpMode s) v (isLoading s)).
Definition setIsLoading (b : bool) : M State unit :=
  modifyState (fun s => mk (email s) (otpMode s) (otp s) b).

(** The [maxLength] of the code field (line 158). *)
Definition OTP_MAX_LENGTH : nat := 6.

(** [onChange] of the code field (line 159). *)
Definition onChange_otp (v : string) : M State unit :=
  setOtp (strip_non_digits v).

Section Handlers.
Variable env : Env.

(** Lines 88-104. *)
Definition handleRequestOtp : M State unit :=
  s ← getState;
  if negb (truthy (VStr (email s))) then
    setMessage (mkMessage "error" "Please enter your committee email address.")
  else
    setIsLoading true ;;
    try_catch_finally
      (apiCall env "/auth/otp/request" "POST"
         (BValue (VObj [("email", VStr (email s))])) VNull ;;
       setOtpMode true ;;
       setMessage (mkMessage "success"
         ("OTP request sent! Check your email: " +:+ email s)))
      (fun error => setMessage (mkMessage "error" (Exn.message error)))
      (setIsLoading false).

(** Lines 106-124. *)
Definition handleVerifyOtp : M State unit :=
  s ← getState;
  if negb (String.length (otp s) =? 6)%nat then
    setMessage (mkMessage "error" "Please enter the 6-digit OTP.")
  else
    setIsLoading true ;;
    try_catch_finally
      (data ← apiCall env "/auth/otp/verify" "POST"
         (BValue (VObj [("email", VStr (email s)); ("otp", VStr (otp s))])) VNull;
       access_token ← lift_result (get_field data "access_token");
       localStorage_setItem "jwt_token" access_token ;;
       access_token ← lift_result (get_field data "access_token");
       setToken access_token ;;
       setMemberEmail (VStr (email s)) ;;
       setMessage (mkMessage "success" "Access granted. Redirecting to Dashboard..."))
      (fun error => setMessage (mkMessage "error" (Exn.message error)))
      (setIsLoading false).

(** What the user can do on the rendered form (lines 126-183): the
    e-mail field and the request button show when [otpMode] is off, the
    code field and its two buttons when it is on, and every control is
    disabled while [isLoading].  The browser does not let an edit of
    the code field exceed its [maxLength]. *)
Inductive Event : Type :=
| TypeEmail (v : string)
| ClickRequestOtp
| TypeOtp (v : string)
| ClickVerify
| ClickBack.

Definition dispatch (e : Event) : M State unit :=
  s ← getState;
  if isLoading s then mret tt
  else
    match e with
    | TypeEmail v => if otpMode s then mret tt else setEmail v
    | ClickRequestOtp => if otpMode s then mret tt else handleRequestOtp
    | TypeOtp v =>
        if otpMode s && (String.length v <=? OTP_MAX_LENGTH)%nat
        then onChange_otp v else mret tt
    | ClickVerify => if otpMode s then handleVerifyOtp else mret tt
    | ClickBack => if otpMode s then setOtpMode false else mret tt
    end.

Fixpoint run (events : list Event) : M State unit :=
  match events with
  | [] => mret tt
  | e :: rest => dispatch e ;; run rest
  end.
End Handlers.
End Login.

(** ** SettingsComponent (lines 188-326) *)

Module Settings.
Record State : Type := mk {
  members : value;
  newEmail : string;
  newPhone : string;
  isLoading : bool
}.

Definition initial : State := mk (VArr []) "" "" false.

Definition setMembers (v : value) : M State unit :=
  modifyState (fun s => mk v (newEmail s) (newPhone s) (isLoading s)).
Definition setNewEmail (v : string) : M State unit :=
  modifyState (fun s => mk (members s) v (newPhone s) (isLoading s)).
Definition setNewPhone (v : string) : M State unit :=
  modifyState (fun s => mk (members s) (newEmail s) v (isLoading s)).
Definition setIsLoading (b : bool) : M State unit :=
  modifyState (fun s => mk (members s) (newEmail s) (newPhone s) b).

(** One [<li>] of the member list as the JSX builds it: the e-mail and
    phone it is given, whether it is marked as the session's own, and the
    [onClick] of its remove button when the JSX builds the button. *)
Record Row : Type := mkRow {
  row_email : value;
  row_phone : value;
  row_is_self : bool;
  row_remove : option (M State unit)
}.

(** The controls that the JSX of a render builds; class names, labels
    and the count in the heading are left out. *)
Record View : Type := mkView {
  view_loading : bool;
  view_rows : list Row;
  view_inputs_disabled : bool;
  view_add_disabled : bool
}.

Fixpoint map_result {A B} (f : A -> result B) (l : list A) : result (list B) :=
  match l with
  | [] => Ok []
  | x :: rest =>
      match f x with
      | Throw e => Throw e
      | Ok y =>
          match map_result f rest with
          | Throw e => Throw e
          | Ok ys => Ok (y :: ys)
          end
      end
  end.

Section Handlers.
Variable env : Env.

(** [fetchMembers] (lines 194-204) up to the [await]: the spinner is
    set and the GET is sent. *)
Definition fetchMembers_begin : M State (result Response) :=
  w ← getWorld;
  setIsLoading true ;;
  apiCall_send env "/auth/members" "GET" (BValue VNull) (token (appState w)).

(** [fetchMembers] from the [await] on. *)
Definition fetchMembers_settle (pending : result Response) : M State unit :=
  try_catch_finally
    (data ← apiCall_await pending;
     setMembers data)
    (fun error => setMessage (mkMessage "error"
       ("Failed to load committee members: " +:+ Exn.message error)))
    (setIsLoading false).

Definition fetchMembers : M State unit :=
  pending ← fetchMembers_begin;
  fetchMembers_settle pending.

(** Lines 210-227.  [fetchMembers()] is called without [await]: it runs
    up to its own [await] inside the [try], the [finally] of this
    handler runs next, and the rest of [fetchMembers] runs when the GET
    settles. *)
Definition handleAddMember : M State unit :=
  s ← getState;
  w ← getWorld;
  if negb (truthy (VStr (newEmail s))) then
    setMessage (mkMessage "error" "Email is required.")
  else
    setIsLoading true ;;
    refetch ← try_catch_finally
      (apiCall env "/auth/members" "POST"
         (BValue (VObj [("email", VStr (newEmail s));
                        ("phone_number", js_or (VStr (newPhone s)) VNull)]))
         (token (appState w)) ;;
       setMessage (mkMessage "success"
         ("Member " +:+ newEmail s +:+ " added successfully.")) ;;
       setNewEmail "" ;;
       setNewPhone "" ;;
       pending ← fetchMembers_begin;
       mret (Some pending))
      (fun error =>
         setMessage (mkMessage "error"
           ("Failed to add member: " +:+ Exn.message error)) ;;
         mret None)
      (setIsLoading false);
    match refetch with
    | Some pending => fetchMembers_settle pending
    | None => mret tt
    end.

(** Lines 240-249: the part of [handleRemoveMember] after its guards. *)
Definition handleRemoveMember_request (memberId memberEmail : value)
  : M State unit :=
  w ← getWorld;
  setIsLoading true ;;
  refetch ← try_catch_finally
    (apiCall env ("/auth/members/" +:+ ToString memberId) "DELETE"
       (BValue VNull) (token (appState w)) ;;
     setMessage (mkMessage "success"
       (ToString memberEmail +:+ " removed successfully.")) ;;
     pending ← fetchMembers_begin;
     mret (Some pending))
    (fun error =>
       setMessage (mkMessage "error"
         ("Failed to remove member: " +:+ Exn.message error)) ;;
       mret None)
    (setIsLoading false);
  match refetch with
  | Some pending => fetchMembers_settle pending
  | None => mret tt
  end.

(** Lines 229-250.  [members] is the array of the render whose button
    was clicked.  The parameter [memberEmail] hides the prop of the
    same name, so both sides of the comparison of line 234 are the
    parameter. *)
Definition handleRemoveMember (members : list value)
  (memberId memberEmail : value) : M State unit :=
  if (length members <=? 1)%nat then
    setMessage (mkMessage "error"
      "Cannot remove: A minimum of 1 member is required.")
  else if strict_eq memberEmail memberEmail then
    setMessage (mkMessage "error" "Cannot remove your own account.")
  else
    confirmed ← window_confirm env
      ("Are you sure you want to remove " +:+ ToString memberEmail +:+ "?");
    if negb confirmed then mret tt
    else handleRemoveMember_request memberId memberEmail.

(** One iteration of [members.map] (lines 271-290); [session] is the
    prop [memberEmail], which never is one object with an e-mail of the
    list. *)
Definition render_row (members : list value) (session : value) (member : value)
  : result Row :=
  match get_field member "id" with
  | Throw e => Throw e
  | Ok id =>
      match get_field member "email", get_field member "phone_number" with
      | Ok email, Ok phone =>
          let is_self := strict_eq_apart email session in
          Ok (mkRow email (js_or phone (VStr "No Phone")) is_self
                (if (1 <? length members)%nat && negb is_self
                 then Some (handleRemoveMember members id email)
                 else None))
      | Throw e, _ | _, Throw e => Throw e
      end
  end.

(** The JSX of lines 252-319, evaluated in order: the controls it has
    built when line 320 is reached.  [members.length] in the heading
    throws on [null]; the list is built only when not loading, where
    [members.map] exists only on an array; the [disabled] tests stop at
    [isLoading] when it is set.  A value of any kind is built into its
    row as it is: React looks at the children of an element only when it
    mounts what a render has returned. *)
Definition controls (s : State) (session : value) : result View :=
  match members s with
  | VUndefined | VNull => Throw (TypeError_read (members s) "length")
  | VArr l =>
      if isLoading s then Ok (mkView true [] true true)
      else
        match map_result (render_row l session) l with
        | Throw e => Throw e
        | Ok rows =>
            Ok (mkView false rows
                  (5 <=? length l)%nat
                  ((5 <=? length l)%nat || negb (truthy (VStr (newEmail s)))))
        end
  | VBool _ | VNum _ | VStr _ | VObj _ =>
      if isLoading s then Ok (mkView true [] true true)
      else Throw (Exn.mk "TypeError" "members.map is not a function")
  end.

(** The render (lines 252-325): after the controls, the child
    [<Plus .../>] of the add button (line 320) is evaluated, and [Plus] is
    not imported.  No render of the component returns. *)
Definition render (s : State) (session : value) : result View :=
  match controls s session with
  | Throw e => Throw e
  | Ok _ => Throw (ReferenceError "Plus")
  end.

(** An event on a control that the JSX builds: its handler runs as the
    JSX wires it.  As [render] throws, the browser never shows these
    controls; [dispatch] gives what each of them is wired to do, and what
    holds after every event holds of the page as written, where no event
    occurs. *)
Inductive Event : Type :=
| TypeNewEmail (v : string)
| TypeNewPhone (v : string)
| ClickAdd
| ClickRemove (row : nat).

Definition dispatch (e : Event) : M State unit :=
  s ← getState;
  w ← getWorld;
  match controls s (memberEmail (appState w)) with
  | Throw _ => mret tt
  | Ok view =>
      match e with
      | TypeNewEmail v =>
          if view_inputs_disabled view then mret tt else setNewEmail v
      | TypeNewPhone v =>
          if view_inputs_disabled view then mret tt else setNewPhone v
      | ClickAdd =>
          if view_add_disabled view then mret tt else handleAddMember
      | ClickRemove i =>
          match view_rows view !! i with
          | Some row =>
              match row_remove row with
              | Some onClick => onClick
              | None => mret tt
              end
          | None => mret tt
          end
      end
  end.
End Handlers.
End Settings.

(** ** DashboardComponent (lines 331-488) *)

Module Dashboard.
Record State : Type := mk {
  file : option File;
  isLoading : bool;
  billPreview : value
}.

Definition initial : State := mk None false VNull.

Definition setFile (f : option File) : M State unit :=
  modifyState (fun s => mk f (isLoading s) (billPreview s)).
Definition setIsLoading (b : bool) : M State unit :=
  modifyState (fun s => mk (file s) b (billPreview s)).
Definition setBillPreview (v : value) : M State unit :=
  modifyState (fun s => mk (file s) (isLoading s) v).

(** Lines 336-339; [files] is [event.target.files]. *)
Definition handleFileChange (files : list File) : M State unit :=
  setFile (head files) ;;
  setBillPreview VNull.

Section Handlers.
Variable env : Env.

(** Lines 341-365. *)
Definition handleGenerateBills : M State unit :=
  s ← getState;
  w ← getWorld;
  match file s with
  | None =>
      setMessage (mkMessage "error" "Please select an Excel file first.")
  | Some f =>
      setIsLoading true ;;
      try_catch_finally
        (data ← apiCall env "/bill/generate" "POST" (BForm [("file", f)])
           (token (appState w));
         setBillPreview data ;;
         ready ← lift_result (get_field data "notifications_ready");
         setMessage (mkMessage "success"
           ("Processing complete. " +:+ ToString ready +:+
            " notifications sent via Telegram in background.")) ;;
         setFile None)
        (fun error => setMessage (mkMessage "error" (Exn.message error)))
        (setIsLoading false)
  end.
(** What the user can do on the upload card (lines 387-431): choose
    files in the file input, disabled while [isLoading], and click the
    button, disabled while [isLoading] or without a file. *)
Inductive Event : Type :=
| SelectFiles (files : list File)
| ClickGenerate.

Definition dispatch (e : Event) : M State unit :=
  s ← getState;
  if isLoading s then mret tt
  else
    match e with
    | SelectFiles files => handleFileChange files
    | ClickGenerate =>
        match file s with
        | None => mret tt
        | Some _ => handleGenerateBills
        end
    end.
End Handlers.
End Dashboard.

(** ** RegistrationComponent (lines 492-557) *)

Module Registration.
Record State : Type := mk {
  flatNo : string;
  chatId : string;
  isLoading : bool
}.

Definition initial : State := mk "" "" false.

Definition setFlatNo (v : string) : M State unit :=
  modifyState (fun s => mk v (chatId s) (isLoading s)).
Definition setChatId (v : string) : M State unit :=
  modifyState (fun s => mk (flatNo s) v (isLoading s)).
Definition setIsLoading (b : bool) : M State unit :=
  modifyState (fun s => mk (flatNo s) (chatId s) b).

(** [onChange] of the chat-id field (line 542). *)
Definition onChange_chatId (v : string) : M State unit :=
  setChatId (strip_non_digits v).

Section Handlers.
Variable env : Env.

(** Lines 497-515. *)
Definition handleRegister : M State unit :=
  s ← getState;
  if negb (truthy (VStr (flatNo s))) || negb (truthy (VStr (chatId s))) then
    setMessage (mkMessage "error" "Flat No and Telegram Chat ID are required.")
  else
    setIsLoading true ;;
    try_catch_finally
      (apiCall env "/bill/telegram/register" "POST"
         (BValue (VObj [("flat_no", VStr (flatNo s));
                        ("telegram_chat_id", VStr (chatId s))])) VNull ;;
       setMessage (mkMessage "success"
         ("Success! Flat " +:+ flatNo s +:+
          " is now linked to receive bills via Telegram.")) ;;
       setFlatNo "" ;;
       setChatId "")
      (fun error => setMessage (mkMessage "error"
         ("Registration failed: " +:+ Exn.message error +:+
          ". Ensure your Flat No is correct.")))
      (setIsLoading false).
End Handlers.

Section Form.
(** [String.prototype.toUpperCase], a built-in of the language. *)
Variable toUpperCase : string -> string.
Variable env : Env.

(** [onChange] of the flat field (line 534). *)
Definition onChange_flatNo (v : string) : M State unit :=
  setFlatNo (toUpperCase v).

(** What the user can do on the form (lines 530-553): every control is
    disabled while [isLoading], the button also while a field is empty. *)
Inductive Event : Type :=
| TypeFlatNo (v : string)
| TypeChatId (v : string)
| ClickRegister.

Definition dispatch (e : Event) : M State unit :=
  s ← getState;
  if isLoading s then mret tt
  else
    match e with
    | TypeFlatNo v => onChange_flatNo v
    | TypeChatId v => onChange_chatId v
    | ClickRegister =>
        if negb (truthy (VStr (flatNo s))) || negb (truthy (VStr (chatId s)))
        then mret tt
        else handleRegister env
    end.

Fixpoint run (events : list Event) : M State unit :=
  match events with
  | [] => mret tt
  | e :: rest => dispatch e ;; run rest
  end.
End Form.
End Registration.

(** ** App (lines 561-665) *)

Module App.
(** The initial hook state, [token] read from [localStorage]. *)
Definition initial (storage : gmap string string) : AppState :=
  mkApp (match storage !! "jwt_token" with Some v => VStr v | None => VNull end)
    PageLogin (VStr "") no_message true.

(** The second effect (lines 589-597). *)
Definition route_effect (a : AppState) : AppState :=
  if negb (isAuthLoading a) then
    if truthy (token a) && truthy (memberEmail a)
    then put_currentPage PageDashboard a
    else put_currentPage PageLogin a
  else a.

(** Its dependency array [[token, memberEmail, isAuthLoading]], compared
    with the values of the render before. *)
Definition deps_changed (before after : AppState) : bool :=
  negb (strict_eq (token before) (token after)
        && strict_eq (memberEmail before) (memberEmail after)
        && Bool.eqb (isAuthLoading before) (isAuthLoading after)).

Inductive Screen : Type :=
| ScreenLoading
| ScreenLogin
| ScreenDashboard
| ScreenSettings
| ScreenRegister.

(** Lines 607-626. *)
Definition renderContent (a : AppState) : Screen :=
  if isAuthLoading a then ScreenLoading
  else if negb (truthy (token a)) || negb (truthy (memberEmail a)) then ScreenLogin
  else
    match currentPage a with
    | PageDashboard => ScreenDashboard
    | PageSettings => ScreenSettings
    | PageRegister => ScreenRegister
    | PageLogin => ScreenDashboard
    end.

(** The render of [App] (lines 628-664).  The header comes first: with a
    truthy token it holds the logout button, whose child [<LogOut .../>]
    (line 656) names an icon that is not imported, and the render throws
    before [renderContent()] of line 661 is called.  Otherwise the screen
    is the one [renderContent] chooses. *)
Definition render (a : AppState) : result Screen :=
  if truthy (token a) then Throw (ReferenceError "LogOut")
  else Ok (renderContent a).

(** A handler followed by the render it causes.  When that render throws,
    React unmounts the tree: no effect runs, and the error is what the
    page is left with.  Otherwise the routing effect runs when a
    dependency differs from its value before the handler.  Its runs
    after the intermediate renders of a handler are left out: its only
    write is [currentPage], and the last run decides. *)
Definition with_effects {S} (handler : M S unit) : M S unit :=
  w0 ← getWorld;
  handler ;;
  w ← getWorld;
  match render (appState w) with
  | Throw e => throw e
  | Ok _ =>
      modifyWorld (fun w =>
        if deps_changed (appState w0) (appState w)
        then with_app route_effect w else w)
  end.

(** Lines 599-605. *)
Definition handleLogout {S} : M S unit :=
  localStorage_removeItem "jwt_token" ;;
  setToken VNull ;;
  setMemberEmail (VStr "") ;;
  setPage PageLogin ;;
  setMessage (mkMessage "success" "You have been securely logged out.").

Section Effects.
Variable env : Env.

(** The first effect (lines 569-586): the promise chain
    [.then(..).catch(..).finally(..)] runs its [catch] callback when the
    call rejects and also when the [then] callback throws. *)
Definition checkToken : M unit unit :=
  storedToken ← localStorage_getItem "jwt_token";
  if truthy storedToken then
    try_catch_finally
      (member ← apiCall env "/auth/me" "GET" (BValue VNull) storedToken;
       setToken storedToken ;;
       email ← lift_result (get_field member "email");
       setMemberEmail email ;;
       setPage PageDashboard)
      (fun _ =>
         localStorage_removeItem "jwt_token" ;;
         setToken VNull)
      (setIsAuthLoading false)
  else setIsAuthLoading false.

(** Mounting [App]: the first render, then both effects and the render
    that follows.  When the first render throws nothing is mounted and no
    effect runs. *)
Definition mount : M unit unit :=
  w ← getWorld;
  match render (appState w) with
  | Throw e => throw e
  | Ok _ => with_effects checkToken
  end.

(** An event on the login form in a state for which [renderContent]
    chooses it (the states in which it is on the screen are among
    these), with the render that follows. *)
Definition login_event (e : Login.Event) : M Login.State unit :=
  w ← getWorld;
  match renderContent (appState w) with
  | ScreenLogin => with_effects (Login.dispatch env e)
  | _ => mret tt
  end.

Fixpoint login_events (events : list Login.Event) : M Login.State unit :=
  match events with
  | [] => mret tt
  | e :: rest => login_event e ;; login_events rest
  end.
End Effects.

(** [handleLogout] as the [onClick] of the logout button, with the
    render that follows. *)
Definition logout : M unit unit := with_effects handleLogout.

(** The page is loaded again: the hook state of [App] starts from what
    [localStorage] holds and no timeout is pending. *)
Definition reload (w : World) : World :=
  mkWorld (initial (localStorage w)) (localStorage w) (requests w) (now w) None [].
End App.

(** ** Vocabulary of the statements *)

(** What a sent call settles to: a rejected [fetch] rejects the call. *)
Definition settle_pending (pending : result Response) : result value :=
  match pending with
  | Ok response => apiCall_settle response
  | Throw e => Throw e
  end.

(** The world after [q] has been handed to [fetch]. *)
Definition sent (q : Request) (w : World) : World :=
  with_requests (fun _ => requests w ++ [q]) w.

(** What [await apiCall(..)] gives when it sends [q] in world [w]. *)
Definition call_outcome (env : Env) (w : World) (q : Request) : result value :=
  settle_pending (net env (requests w ++ [q])).

(** [v] is what a GET of the members endpoint in the log settled to. *)
Definition from_get (env : Env) (log : list Request) (v : value) : Prop :=
  exists (pre post : list Request) (q : Request),
    log = pre ++ q :: post
    /\ url q = API_BASE_URL +:+ "/auth/members"
    /\ method q = "GET"
    /\ settle_pending (net env (pre ++ [q])) = Ok v.

(** The banner shows the error text [txt] and its timeout is pending: the
    message state holds it; when it is not empty it is displayed, the
    timeout is due [BANNER_DELAY] after the present, and once the clock
    has reached that time the message is empty again and nothing is
    displayed. *)
Definition shows_error (txt : string) (w : World) : Prop :=
  message (appState w) = mkMessage "error" txt
  /\ (txt <> "" ->
      Notification (message (appState w)) = Some (mkBanner true txt)
      /\ timer w = Some (now w + BANNER_DELAY)
      /\ forall t, now w + BANNER_DELAY <= t ->
           message (appState (advance t w)) = no_message
           /\ Notification (message (appState (advance t w))) = None).

(** The requests of the handlers. *)
Definition otp_request_call (email : string) : Request :=
  apiCall_request "/auth/otp/request" "POST"
    (BValue (VObj [("email", VStr email)])) VNull.
Definition otp_verify_call (email otp : string) : Request :=
  apiCall_request "/auth/otp/verify" "POST"
    (BValue (VObj [("email", VStr email); ("otp", VStr otp)])) VNull.
Definition me_call (tok : value) : Request :=
  apiCall_request "/auth/me" "GET" (BValue VNull) tok.
Definition members_get_call (tok : value) : Request :=
  apiCall_request "/auth/members" "GET" (BValue VNull) tok.
Definition members_post_call (email phone : string) (tok : value) : Request :=
  apiCall_request "/auth/members" "POST"
    (BValue (VObj [("email", VStr email);
                   ("phone_number", js_or (VStr phone) VNull)])) tok.
Definition members_delete_call (memberId : value) (tok : value) : Request :=
  apiCall_request ("/auth/members/" +:+ ToString memberId) "DELETE"
    (BValue VNull) tok.
Definition generate_call (f : File) (tok : value) : Request :=
  apiCall_request "/bill/generate" "POST" (BForm [("file", f)]) tok.
Definition register_call (flatNo chatId : string) : Request :=
  apiCall_request "/bill/telegram/register" "POST"
    (BValue (VObj [("flat_no", VStr flatNo);
                   ("telegram_chat_id", VStr chatId)])) VNull.

(** A visit of the settings page as the component wires it: the mount
    effect calls [fetchMembers] (lines 206-208), then come events on the
    controls.  The page as written does less: its first render throws
    ([Settings.render]), so the effect does not run and no control shows. *)
Fixpoint settings_events (env : Env) (events : list Settings.Event)
  : M Settings.State unit :=
  match events with
  | [] => mret tt
  | e :: rest => Settings.dispatch env e ;; settings_events env rest
  end.

Definition settings_visit (env : Env) (events : list Settings.Event)
  : M Settings.State unit :=
  Settings.fetchMembers env ;; settings_events env events.

(** The code field holds digits only, and at most [OTP_MAX_LENGTH] of them. *)
Definition otp_wellformed (s : Login.State) : Prop :=
  string_forall is_digit (Login.otp s) = true
  /\ (String.length (Login.otp s) <= Login.OTP_MAX_LENGTH)%nat.

(** The member list is the initial empty array or what a GET of the
    members endpoint in the log settled to. *)
Definition members_inv (env : Env) (s : Settings.State) (w : World) : Prop :=
  Settings.members s = VArr [] \/ from_get env (requests w) (Settings.members s).

(** A handler run from [(s, w)] only appends to the log, and leaves the
    member list as it was or holding what a GET of the log settled to. *)
Definition members_step (env : Env) (s : Settings.State) (w : World)
  (out : result unit * Settings.State * World) : Prop :=
  (exists extra, requests out.2 = requests w ++ extra)
  /\ (Settings.members out.1.2 = Settings.members s
      \/ from_get env (requests out.2) (Settings.members out.1.2)).

(** The number of requests of a log that went to [endpoint]. *)
Definition calls_to (endpoint : string) (log : list Request) : nat :=
  length (filter (fun q => url q = API_BASE_URL +:+ endpoint) log).

(** ** Vocabulary of the further properties *)

(** The log holds an OTP request for [email] that settled without
    throwing. *)
Definition otp_granted (env : Env) (log : list Request) (email : string) : Prop :=
  exists (pre post : list Request) (d : value),
    log = pre ++ otp_request_call email :: post
    /\ settle_pending (net env (pre ++ [otp_request_call email])) = Ok d.

(** A request the login form may send after the requests [before]: an OTP
    request for a non-empty e-mail, or a verify call with a code of six
    digits for an e-mail whose OTP request was granted. *)
Definition login_request_ok (env : Env) (before : list Request) (q : Request)
  : Prop :=
  (exists e, e <> "" /\ q = otp_request_call e)
  \/ (exists e o,
        q = otp_verify_call e o
        /\ String.length o = 6%nat
        /\ string_forall is_digit o = true
        /\ otp_granted env before e).

(** The state of the login form agrees with the log: the code is well
    formed, and the code form shows only for a granted e-mail. *)
Definition login_inv (env : Env) (s : Login.State) (w : World) : Prop :=
  otp_wellformed s
  /\ (Login.otpMode s = true -> otp_granted env (requests w) (Login.email s)).

(** The [Authorization] header that [apiCall] builds from a token. *)
Definition bearer (tok : value) : option string :=
  if truthy tok then Some ("Bearer " +:+ ToString tok) else None.

(** A request of the settings page under the session token [tok]. *)
Definition members_request_ok (tok : value) (q : Request) : Prop :=
  url q = API_BASE_URL +:+ "/auth/members"
  /\ (method q = "GET" \/ method q = "POST")
  /\ headers q !! "Authorization" = bearer tok.

(** A request of the registration form. *)
Definition register_request_ok (toUpperCase : string -> string) (q : Request)
  : Prop :=
  exists typed chat,
    q = register_call (toUpperCase typed) chat
    /\ toUpperCase typed <> ""
    /\ chat <> ""
    /\ string_forall is_digit chat = true
    /\ headers q !! "Authorization" = None.

(** The fields of the registration form: the chat id is digits only and
    the flat number is an upper-cased text or still empty. *)
Definition registration_inv (toUpperCase : string -> string)
  (s : Registration.State) : Prop :=
  string_forall is_digit (Registration.chatId s) = true
  /\ (Registration.flatNo s = ""
      \/ exists typed, Registration.flatNo s = toUpperCase typed).

(** A handler run sends requests that are [members_request_ok] under the
    session token, and leaves the token as it was. *)
Definition members_requests_step (s : Settings.State) (w : World)
  (out : result unit * Settings.State * World) : Prop :=
  token (appState out.2) = token (appState w)
  /\ exists extra,
       requests out.2 = requests w ++ extra
       /\ Forall (members_request_ok (token (appState w))) extra.

(** ** Sample data for the concrete runs *)

Definition server_always (r : Response) : Env := mkEnv (fun _ => Ok r) (fun _ => true).

(** A server that answers the n-th request of the log with the n-th
    response of a script, and [fallback] past its end. *)
Definition server_script (script : list Response) (fallback : Response) : Env :=
  mkEnv (fun log => Ok (default fallback (script !! pred (length log))))
        (fun _ => true).

Definition empty_world : World :=
  mkWorld (mkApp VNull PageLogin (VStr "") no_message false) ∅ [] 0 None [].

(** A world with a session: the token and e-mail of a logged-in member. *)
Definition session_world (tok email : string) : World :=
  mkWorld (mkApp (VStr tok) PageSettings (VStr email) no_message false)
    {["jwt_token" := tok]} [] 0 None [].

Definition member (id : Z) (email : string) : value :=
  VObj [("id", VNum id); ("email", VStr email); ("phone_number", VNull)].

(** * Proofs *)

(** ** Running the monad *)

Create HintDb handler discriminated.
#[local] Hint Unfold mbind mret M_bind M_ret getState getWorld modifyState
  modifyWorld throw lift_result try_catch_finally setToken setMemberEmail
  setPage setIsAuthLoading setMessage localStorage_getItem localStorage_setItem
  localStorage_removeItem window_confirm : handler.
#[local] Hint Unfold Login.setEmail Login.setOtpMode Login.setOtp
  Login.setIsLoading Login.onChange_otp Settings.setMembers Settings.setNewEmail
  Settings.setNewPhone Settings.setIsLoading Dashboard.setFile
  Dashboard.setIsLoading Dashboard.setBillPreview Registration.setFlatNo
  Registration.setChatId Registration.setIsLoading : handler.

(** Unfold the monad and compute, leaving calls, strings and the banner
    folded. *)
Ltac run :=
  repeat (progress (autounfold with handler;
    cbn -[apiCall apiCall_send apiCall_await apiCall_request String.append
          ToString world_setMessage settle_pending sent call_outcome
          strict_eq String.length Nat.eqb Nat.leb Nat.ltb advance insert delete
          lookup Z.add Z.leb Z.eqb Z.max App.deps_changed App.route_effect
          App.renderContent App.render])).

Lemma apiCall_send_run {S} env e m b t (s : S) w :
  apiCall_send env e m b t s w
  = (Ok (net env (requests w ++ [apiCall_request e m b t])), s,
     sent (apiCall_request e m b t) w).
Proof. reflexivity. Qed.

Lemma apiCall_await_run {S} (pending : result Response) (s : S) w :
  apiCall_await pending s w = (settle_pending pending, s, w).
Proof.
  unfold apiCall_await, settle_pending. run.
  destruct pending; reflexivity.
Qed.

Lemma apiCall_run {S} env e m b t (s : S) w :
  apiCall env e m b t s w
  = (call_outcome env w (apiCall_request e m b t), s,
     sent (apiCall_request e m b t) w).
Proof.
  unfold apiCall, call_outcome. run.
  rewrite apiCall_send_run, apiCall_await_run.
  destruct (settle_pending _); reflexivity.
Qed.

Lemma requests_sent q w : requests (sent q w) = requests w ++ [q].
Proof. reflexivity. Qed.

Lemma requests_world_setMessage m w : requests (world_setMessage m w) = requests w.
Proof.
  unfold world_setMessage, Notification_effect.
  destruct (Notification _); reflexivity.
Qed.

Lemma localStorage_world_setMessage m w :
  localStorage (world_setMessage m w) = localStorage w.
Proof.
  unfold world_setMessage, Notification_effect.
  destruct (Notification _); reflexivity.
Qed.

Lemma message_world_setMessage m w : message (appState (world_setMessage m w)) = m.
Proof.
  unfold world_setMessage, Notification_effect.
  destruct (Notification _); reflexivity.
Qed.

Lemma app_world_setMessage m w :
  appState (world_setMessage m w) = put_message m (appState w).
Proof.
  unfold world_setMessage, Notification_effect.
  destruct (Notification _); reflexivity.
Qed.

(** ** JavaScript values *)

Lemma strict_eq_refl : forall v, strict_eq v v = true.
Proof.
  fix IH 1. intros [| | b | n | s | l | l]; simpl; try reflexivity.
  - destruct b; reflexivity.
  - apply Z.eqb_refl.
  - apply String.eqb_refl.
  - induction l as [|x l IHl]; [reflexivity|].
    rewrite IH, IHl. reflexivity.
  - induction l as [|[k x] l IHl]; [reflexivity|].
    rewrite String.eqb_refl, IH, IHl. reflexivity.
Qed.

Lemma truthy_VStr s : truthy (VStr s) = true <-> s <> "".
Proof.
  simpl. destruct (String.eqb_spec s ""); simpl; split; congruence.
Qed.

Lemma truthy_VStr_false s : truthy (VStr s) = false <-> s = "".
Proof.
  simpl. destruct (String.eqb_spec s ""); simpl; split; congruence.
Qed.

Lemma strip_non_digits_digits v : string_forall is_digit (strip_non_digits v) = true.
Proof.
  unfold strip_non_digits.
  induction v as [|c v IH]; simpl; [reflexivity|].
  destruct (is_digit c) eqn:Hc; simpl; [rewrite Hc|]; exact IH.
Qed.

Lemma strip_non_digits_length v :
  (String.length (strip_non_digits v) <= String.length v)%nat.
Proof.
  unfold strip_non_digits.
  induction v as [|c v IH]; simpl; [lia|].
  destruct (is_digit c); simpl; lia.
Qed.

(** ** The banner *)

Lemma world_setMessage_shows_error txt w :
  shows_error txt (world_setMessage (mkMessage "error" txt) w).
Proof.
  split; [apply message_world_setMessage|].
  intros Hne. apply truthy_VStr in Hne.
  assert (HN : Notification (mkMessage "error" txt) = Some (mkBanner true txt)).
  { unfold Notification. cbn [text type]. rewrite Hne. reflexivity. }
  destruct w as [a st log clock tm old].
  unfold world_setMessage, Notification_effect, advance. simpl.
  rewrite HN. simpl.
  split; [exact HN|]. split; [reflexivity|].
  intros t Ht.
  destruct (Z.leb_spec (clock + BANNER_DELAY) (Z.max clock t)) as [_|Hlt]; [|lia].
  unfold world_setMessage, Notification_effect. simpl. split; reflexivity.
Qed.

Lemma Notification_text m :
  text m <> "" ->
  Notification m = Some (mkBanner (String.eqb (type m) "error") (text m)).
Proof.
  intros H. apply truthy_VStr in H. unfold Notification. rewrite H. reflexivity.
Qed.

(** Setting a message with a text cancels the timeout of the effect's
    last run and sets a new one; the stale ones stay. *)
Lemma world_setMessage_text m w :
  text m <> "" ->
  world_setMessage m w
  = with_timer (Some (now w + BANNER_DELAY)) (with_app (put_message m) w).
Proof.
  intros H. unfold world_setMessage, Notification_effect.
  cbn [with_app appState message put_message]. rewrite (Notification_text m H).
  reflexivity.
Qed.

(** Before any pending timeout is due, time passes and nothing else
    happens. *)
Lemma advance_before t w :
  (forall d, timer w = Some d -> Z.max (now w) t < d) ->
  Forall (fun d => Z.max (now w) t < d) (stale w) ->
  advance t w = with_now (Z.max (now w) t) w.
Proof.
  intros Hown Hstale. unfold advance.
  cbn [with_now now timer stale].
  assert (Ho : match timer w with
               | Some d => d <=? Z.max (now w) t
               | None => false
               end = false).
  { destruct (timer w) as [d|]; [|reflexivity].
    apply Z.leb_gt. apply Hown. reflexivity. }
  assert (Hs : existsb (fun d => d <=? Z.max (now w) t) (stale w) = false).
  { induction Hstale as [|d l Hd _ IH]; [reflexivity|].
    cbn [existsb]. rewrite IH, orb_false_r. apply Z.leb_gt, Hd. }
  rewrite Ho, Hs. reflexivity.
Qed.

(** Once a pending timeout is due, the message is empty. *)
Lemma advance_due t w d :
  d <= Z.max (now w) t ->
  timer w = Some d \/ In d (stale w) ->
  message (appState (advance t w)) = no_message.
Proof.
  intros Hd Hpending. unfold advance.
  cbn [with_now now timer stale].
  assert (Hfire : match timer w with
                  | Some d => d <=? Z.max (now w) t
                  | None => false
                  end
                  || existsb (fun d => d <=? Z.max (now w) t) (stale w) = true).
  { destruct Hpending as [-> | Hin].
    - apply orb_true_iff. left. apply Z.leb_le, Hd.
    - apply orb_true_iff. right. apply existsb_exists.
      exists d. split; [exact Hin|apply Z.leb_le, Hd]. }
  rewrite Hfire. apply message_world_setMessage.
Qed.

(** ** apiCall *)




(** C10.  For every response that is neither 204 nor in 200-299: when the
    body parses to JSON that has no [detail], the call throws an Error whose
    message is "API Error: " followed by the status text; and when the body
    does not parse, the call throws what [response.json()] threw, the
    status not being looked at. *)
Theorem apiCall_fallback_message {S} env endpoint meth b tok (s : S) w response :
  net env (requests w ++ [apiCall_request endpoint meth b tok]) = Ok response ->
  status response <> 204 ->
  ok response = false ->
  let outcome := (apiCall env endpoint meth b tok s w).1.1 in
  (forall data, json response = Ok data ->
     get_field data "detail" = Ok VUndefined ->
     outcome = Throw (Error ("API Error: " +:+ statusText response)))
  /\ (forall e, json response = Throw e -> outcome = Throw e).
Proof.
  intros Hnet H204 Hok. rewrite apiCall_run. unfold call_outcome. rewrite Hnet.
  cbn [fst settle_pending]. unfold apiCall_settle.
  apply Z.eqb_neq in H204. rewrite H204. split.
  - intros data Hjson Hdetail. rewrite Hjson, Hok, Hdetail. reflexivity.
  - intros e Hjson. rewrite Hjson. reflexivity.
Qed.

Lemma apiCall_fallback_message_witness :
  (apiCall (server_always (mkResponse 500 "Internal Server Error" (Ok (VObj []))))
     "/auth/members" "GET" (BValue VNull) (VStr "tok") tt empty_world).1.1
  = Throw (Error "API Error: Internal Server Error").
Proof.
  refine (proj1 (apiCall_fallback_message
            (server_always (mkResponse 500 "Internal Server Error" (Ok (VObj []))))
            "/auth/members" "GET" (BValue VNull) (VStr "tok") tt empty_world
            _ eq_refl _ eq_refl) _ eq_refl eq_refl).
  simpl. lia.
Defined.

(** ** Registration *)

(** C9.  [handleRegister] sends nothing and changes no field when a field
    is empty.  Otherwise it sends the register call once; when the call
    succeeds both fields are set to the empty string, and when it throws
    both fields keep their values and the error message is set. *)
Theorem handleRegister_fields env s w :
  let q := register_call (Registration.flatNo s) (Registration.chatId s) in
  let '(_, s', w') := Registration.handleRegister env s w in
  (Registration.flatNo s = "" \/ Registration.chatId s = "" ->
     s' = s /\ requests w' = requests w)
  /\ (Registration.flatNo s <> "" -> Registration.chatId s <> "" ->
      requests w' = requests w ++ [q]
      /\ match call_outcome env w q with
         | Ok _ => Registration.flatNo s' = "" /\ Registration.chatId s' = ""
         | Throw e =>
             Registration.flatNo s' = Registration.flatNo s
             /\ Registration.chatId s' = Registration.chatId s
             /\ message (appState w')
                = mkMessage "error"
                    ("Registration failed: " +:+ Exn.message e +:+
                     ". Ensure your Flat No is correct.")
         end).
Proof.
  destruct s as [f c l]. unfold Registration.handleRegister, register_call. run.
  destruct (String.eqb_spec f "") as [->|Hf]; run.
  { split; [intros _|congruence].
    split; [reflexivity|apply requests_world_setMessage]. }
  destruct (String.eqb_spec c "") as [->|Hc]; run.
  { split; [intros _|congruence].
    split; [reflexivity|apply requests_world_setMessage]. }
  rewrite apiCall_run.
  destruct (call_outcome _ _ _) as [d|e]; run.
  - split; [intros [?|?]; congruence|]. intros _ _.
    rewrite requests_world_setMessage. auto.
  - split; [intros [?|?]; congruence|]. intros _ _.
    rewrite requests_world_setMessage, message_world_setMessage. auto.
Qed.

Lemma handleRegister_fields_witness :
  let s := Registration.mk "A-101" "123456789" false in
  let env := server_always (mkResponse 404 "Not Found"
               (Ok (VObj [("detail", VStr "Flat not found")]))) in
  Registration.flatNo (Registration.handleRegister env s empty_world).1.2 = "A-101"
  /\ Registration.chatId (Registration.handleRegister env s empty_world).1.2
     = "123456789".
Proof.
  intros s env.
  pose proof (handleRegister_fields env s empty_world) as H.
  destruct (Registration.handleRegister env s empty_world) as [[r s'] w'].
  destruct H as [_ H].
  destruct (H ltac:(discriminate) ltac:(discriminate)) as [_ Hout].
  change (call_outcome env empty_world
            (register_call (Registration.flatNo s) (Registration.chatId s)))
    with (@Throw value (Error "Flat not found")) in Hout.
  destruct Hout as (Hf & Hc & _). split; assumption.
Defined.

(** ** Removing a member *)

(** Whatever the target, [handleRemoveMember] ends in one of its two
    rejections: nothing is sent and the component state is unchanged. *)
Lemma handleRemoveMember_sends_nothing env members memberId memberEmail s w :
  Settings.handleRemoveMember env members memberId memberEmail s w
  = (Ok tt, s,
     world_setMessage
       (mkMessage "error"
          (if (length members <=? 1)%nat
           then "Cannot remove: A minimum of 1 member is required."
           else "Cannot remove your own account.")) w).
Proof.
  unfold Settings.handleRemoveMember.
  destruct (length members <=? 1)%nat; [reflexivity|].
  rewrite strict_eq_refl. reflexivity.
Qed.

(** C1, on the code.  With two members listed and the session of
    admin@example.com, the JSX builds the remove button in the row of
    bob@example.com; the click it is wired to is rejected as a removal of
    the caller's own account and no request is sent. *)
Theorem remove_other_member_rejected (env : Env) :
  let members := [member 1 "admin@example.com"; member 2 "bob@example.com"] in
  let s := Settings.mk (VArr members) "" "" false in
  let w := session_world "tok" "admin@example.com" in
  (exists view row,
     Settings.controls env s (memberEmail (appState w)) = Ok view
     /\ Settings.view_rows view !! 1%nat = Some row
     /\ Settings.row_email row = VStr "bob@example.com"
     /\ Settings.row_is_self row = false
     /\ is_Some (Settings.row_remove row))
  /\ Settings.dispatch env (Settings.ClickRemove 1) s w
     = (Ok tt, s,
        world_setMessage (mkMessage "error" "Cannot remove your own account.") w)
  /\ requests (Settings.dispatch env (Settings.ClickRemove 1) s w).2 = requests w.
Proof.
  intros members s w. split; [|split].
  - eexists _, _. repeat split. eexists. reflexivity.
  - reflexivity.
  - reflexivity.
Qed.

(** ** Login: the code field *)

Lemma handleVerifyOtp_blocked env s w :
  String.length (Login.otp s) <> 6%nat ->
  Login.handleVerifyOtp env s w
  = (Ok tt, s, world_setMessage (mkMessage "error" "Please enter the 6-digit OTP.") w).
Proof.
  intros Hlen. unfold Login.handleVerifyOtp. run.
  destruct (Nat.eqb_spec (String.length (Login.otp s)) 6); [contradiction|].
  reflexivity.
Qed.

Lemma handleRequestOtp_otp env s w :
  Login.otp (Login.handleRequestOtp env s w).1.2 = Login.otp s.
Proof.
  destruct s as [e m o l]. unfold Login.handleRequestOtp. run.
  destruct (String.eqb e ""); run; [reflexivity|].
  rewrite apiCall_run. destruct (call_outcome _ _ _); reflexivity.
Qed.

Lemma handleVerifyOtp_otp env s w :
  Login.otp (Login.handleVerifyOtp env s w).1.2 = Login.otp s.
Proof.
  destruct s as [e m o l]. unfold Login.handleVerifyOtp. run.
  destruct (String.length o =? 6)%nat; run; [|reflexivity].
  rewrite apiCall_run. destruct (call_outcome _ _ _) as [data|err]; run;
    [|reflexivity].
  destruct (get_field data "access_token"); reflexivity.
Qed.

Lemma dispatch_otp_wellformed env e s w :
  otp_wellformed s -> otp_wellformed (Login.dispatch env e s w).1.2.
Proof.
  intros Hs. unfold Login.dispatch. run.
  destruct (Login.isLoading s) eqn:Hl; [exact Hs|].
  destruct e as [v| |v| |]; destruct (Login.otpMode s) eqn:Hm; run; try exact Hs.
  - unfold otp_wellformed. rewrite handleRequestOtp_otp. exact Hs.
  - destruct (Nat.leb_spec (String.length v) Login.OTP_MAX_LENGTH) as [Hv|Hv];
      run; [|exact Hs].
    split; [apply strip_non_digits_digits|].
    pose proof (strip_non_digits_length v). cbn [Login.otp]. lia.
  - unfold otp_wellformed. rewrite handleVerifyOtp_otp. exact Hs.
Qed.

Lemma run_otp_wellformed env events s w :
  otp_wellformed s -> otp_wellformed (Login.run env events s w).1.2.
Proof.
  revert s w. induction events as [|e events IH]; intros s w Hs; [exact Hs|].
  cbn [Login.run]. unfold mbind, M_bind.
  pose proof (dispatch_otp_wellformed env e s w Hs) as Hd.
  destruct (Login.dispatch env e s w) as [[[[]|err] s1] w1]; cbn [fst snd] in *.
  - apply IH, Hd.
  - exact Hd.
Qed.

(** C4.  [handleVerifyOtp] started with a code whose length is not 6 sets
    the error message and returns: the component state is unchanged and
    nothing is sent.  Every change of the code field stores its value with
    the non-digits removed.  In every state the form can reach, the code
    consists of digits and has at most 6 of them, so a code of length 6
    is six digits. *)
Theorem otp_verify_gate env :
  (forall s w,
     String.length (Login.otp s) <> 6%nat ->
     Login.handleVerifyOtp env s w
     = (Ok tt, s,
        world_setMessage (mkMessage "error" "Please enter the 6-digit OTP.") w)
     /\ requests (Login.handleVerifyOtp env s w).2 = requests w)
  /\ (forall v s w,
        Login.otp (Login.onChange_otp v s w).1.2 = strip_non_digits v
        /\ string_forall is_digit (strip_non_digits v) = true)
  /\ (forall events w0,
        let s := (Login.run env events Login.initial w0).1.2 in
        string_forall is_digit (Login.otp s) = true
        /\ (String.length (Login.otp s) <= 6)%nat).
Proof.
  split; [|split].
  - intros s w Hlen. rewrite (handleVerifyOtp_blocked env s w Hlen).
    split; [reflexivity|apply requests_world_setMessage].
  - intros v s w. split; [reflexivity|apply strip_non_digits_digits].
  - intros events w0.
    apply (run_otp_wellformed env events Login.initial w0).
    split; [reflexivity|cbn; lia].
Qed.

Lemma otp_verify_gate_witness :
  requests (Login.handleVerifyOtp (server_always (mkResponse 200 "OK" (Ok VNull)))
              (Login.mk "admin@example.com" true "12345" false) empty_world).2
  = [].
Proof.
  refine (proj2 (proj1 (otp_verify_gate
            (server_always (mkResponse 200 "OK" (Ok VNull))))
            (Login.mk "admin@example.com" true "12345" false) empty_world _)).
  cbn. lia.
Defined.

(** ** Settings: what the handlers compute *)

Lemma token_world_setMessage m w :
  token (appState (world_setMessage m w)) = token (appState w).
Proof. rewrite app_world_setMessage. reflexivity. Qed.

Lemma fetchMembers_run env s w :
  let g := members_get_call (token (appState w)) in
  Settings.fetchMembers env s w
  = match call_outcome env w g with
    | Ok data =>
        (Ok tt, Settings.mk data (Settings.newEmail s) (Settings.newPhone s) false,
         sent g w)
    | Throw e =>
        (Ok tt,
         Settings.mk (Settings.members s) (Settings.newEmail s)
           (Settings.newPhone s) false,
         world_setMessage
           (mkMessage "error"
              ("Failed to load committee members: " +:+ Exn.message e))
           (sent g w))
    end.
Proof.
  unfold Settings.fetchMembers, Settings.fetchMembers_begin,
    Settings.fetchMembers_settle, call_outcome, members_get_call. run.
  rewrite apiCall_send_run, apiCall_await_run.
  destruct (settle_pending _); reflexivity.
Qed.

Lemma handleAddMember_run env s w :
  Settings.newEmail s <> "" ->
  let q := members_post_call (Settings.newEmail s) (Settings.newPhone s)
             (token (appState w)) in
  let g := members_get_call (token (appState w)) in
  let w1 := world_setMessage
              (mkMessage "success"
                 ("Member " +:+ Settings.newEmail s +:+ " added successfully."))
              (sent q w) in
  Settings.handleAddMember env s w
  = match call_outcome env w q with
    | Throw e =>
        (Ok tt,
         Settings.mk (Settings.members s) (Settings.newEmail s)
           (Settings.newPhone s) false,
         world_setMessage
           (mkMessage "error" ("Failed to add member: " +:+ Exn.message e))
           (sent q w))
    | Ok _ =>
        match call_outcome env w1 g with
        | Ok data => (Ok tt, Settings.mk data "" "" false, sent g w1)
        | Throw e =>
            (Ok tt, Settings.mk (Settings.members s) "" "" false,
             world_setMessage
               (mkMessage "error"
                  ("Failed to load committee members: " +:+ Exn.message e))
               (sent g w1))
        end
    end.
Proof.
  intros Hne. apply truthy_VStr in Hne.
  unfold Settings.handleAddMember, Settings.fetchMembers_begin,
    Settings.fetchMembers_settle, members_post_call, members_get_call.
  run. cbn [truthy] in Hne. rewrite Hne. run.
  rewrite apiCall_run.
  destruct (call_outcome env w _) as [d|e]; run; [|reflexivity].
  rewrite apiCall_send_run. run. rewrite apiCall_await_run.
  rewrite token_world_setMessage. cbn [sent with_requests appState token].
  unfold call_outcome at 1.
  destruct (settle_pending _); reflexivity.
Qed.

Lemma handleRemoveMember_request_run env memberId memberEmail s w :
  let q := members_delete_call memberId (token (appState w)) in
  let g := members_get_call (token (appState w)) in
  let w1 := world_setMessage
              (mkMessage "success" (ToString memberEmail +:+ " removed successfully."))
              (sent q w) in
  Settings.handleRemoveMember_request env memberId memberEmail s w
  = match call_outcome env w q with
    | Throw e =>
        (Ok tt,
         Settings.mk (Settings.members s) (Settings.newEmail s)
           (Settings.newPhone s) false,
         world_setMessage
           (mkMessage "error" ("Failed to remove member: " +:+ Exn.message e))
           (sent q w))
    | Ok _ =>
        match call_outcome env w1 g with
        | Ok data =>
            (Ok tt,
             Settings.mk data (Settings.newEmail s) (Settings.newPhone s) false,
             sent g w1)
        | Throw e =>
            (Ok tt,
             Settings.mk (Settings.members s) (Settings.newEmail s)
               (Settings.newPhone s) false,
             world_setMessage
               (mkMessage "error"
                  ("Failed to load committee members: " +:+ Exn.message e))
               (sent g w1))
        end
    end.
Proof.
  unfold Settings.handleRemoveMember_request, Settings.fetchMembers_begin,
    Settings.fetchMembers_settle, members_delete_call, members_get_call.
  run. rewrite apiCall_run.
  destruct (call_outcome env w _) as [d|e]; run; [|reflexivity].
  rewrite apiCall_send_run. run. rewrite apiCall_await_run.
  rewrite token_world_setMessage. cbn [sent with_requests appState token].
  unfold call_outcome at 1.
  destruct (settle_pending _); reflexivity.
Qed.

(** ** Settings: the add control *)

(** No render of the settings page returns a view. *)
Lemma render_throws env s session :
  exists e, Settings.render env s session = Throw e.
Proof.
  unfold Settings.render.
  destruct (Settings.controls env s session); eexists; reflexivity.
Qed.

Lemma render_after_controls env s session view :
  Settings.controls env s session = Ok view ->
  Settings.render env s session = Throw (ReferenceError "Plus").
Proof. intros H. unfold Settings.render. rewrite H. reflexivity. Qed.

(** C5, on the code.  With one member listed, bob@example.com typed in
    the e-mail field and nothing loading, the JSX computes an add button
    that is enabled and [handleAddMember] would send the POST of the
    members endpoint with the e-mail typed; but the render throws the
    ReferenceError of line 320 instead of returning the button.  Every
    render whose JSX reaches that line throws it and no render returns a
    view, so the add control is never shown and the add never proceeds. *)
Theorem add_control_never_renders env :
  let s := Settings.mk (VArr [member 1 "admin@example.com"])
             "bob@example.com" "" false in
  let w := session_world "tok" "admin@example.com" in
  let session := memberEmail (appState w) in
  (exists view,
     Settings.controls env s session = Ok view
     /\ Settings.view_add_disabled view = false)
  /\ (exists rest,
        requests (Settings.handleAddMember env s w).2
        = members_post_call "bob@example.com" "" (VStr "tok") :: rest)
  /\ Settings.render env s session = Throw (ReferenceError "Plus")
  /\ (forall s' session' view,
        Settings.controls env s' session' = Ok view ->
        Settings.render env s' session' = Throw (ReferenceError "Plus"))
  /\ (forall s' session', exists e, Settings.render env s' session' = Throw e).
Proof.
  intros s w session. split; [|split; [|split; [|split]]].
  - eexists. split; reflexivity.
  - rewrite (handleAddMember_run env s w ltac:(discriminate)).
    destruct (call_outcome env w _) as [d|e].
    + destruct (call_outcome env _ _) as [data|e]; eexists; cbn [snd];
        rewrite ?requests_world_setMessage, requests_sent,
          requests_world_setMessage, requests_sent; reflexivity.
    + eexists. cbn [snd]. rewrite requests_world_setMessage, requests_sent.
      reflexivity.
  - reflexivity.
  - apply render_after_controls.
  - apply render_throws.
Qed.

(** ** Settings: the member list only comes from a GET *)

Lemma from_get_app env log extra v :
  from_get env log v -> from_get env (log ++ extra) v.
Proof.
  intros (pre & post & q & -> & Hurl & Hmeth & Hout).
  exists pre, (post ++ extra), q. repeat split; try assumption.
  rewrite <- app_assoc. reflexivity.
Qed.

Lemma from_get_last env log tok v :
  settle_pending (net env (log ++ [members_get_call tok])) = Ok v ->
  from_get env (log ++ [members_get_call tok]) v.
Proof.
  intros Hout. exists log, [], (members_get_call tok).
  repeat split. exact Hout.
Qed.

Lemma members_step_inv env s w out :
  members_inv env s w -> members_step env s w out ->
  members_inv env out.1.2 out.2.
Proof.
  intros Hinv [[extra Hlog] [Hsame|Hget]]; [|right; exact Hget].
  destruct Hinv as [Hinit|Hget]; [left; congruence|].
  right. rewrite Hsame, Hlog. apply from_get_app, Hget.
Qed.

Lemma members_step_setMessage env s w m :
  members_step env s w (Ok tt, s, world_setMessage m w).
Proof.
  split; [|left; reflexivity].
  exists []. cbn [snd]. rewrite requests_world_setMessage, app_nil_r. reflexivity.
Qed.

Lemma members_step_refetch env s s' w q m :
  let g := members_get_call (token (appState w)) in
  let w1 := world_setMessage m (sent q w) in
  Settings.members s' = Settings.members s ->
  members_step env s w
    match call_outcome env w1 g with
    | Ok data =>
        (Ok tt,
         Settings.mk data (Settings.newEmail s') (Settings.newPhone s') false,
         sent g w1)
    | Throw e =>
        (Ok tt, Settings.mk (Settings.members s') (Settings.newEmail s')
                  (Settings.newPhone s') false,
         world_setMessage
           (mkMessage "error"
              ("Failed to load committee members: " +:+ Exn.message e))
           (sent g w1))
    end.
Proof.
  intros g w1 Hsame.
  assert (Hlog : requests w1 = requests w ++ [q]).
  { unfold w1. rewrite requests_world_setMessage. reflexivity. }
  destruct (call_outcome env w1 g) as [data|e] eqn:Hout.
  - split.
    + exists [q; g]. cbn [snd]. rewrite requests_sent, Hlog, <- app_assoc.
      reflexivity.
    + right. cbn [fst snd Settings.members]. rewrite requests_sent.
      apply from_get_last. exact Hout.
  - split.
    + exists [q; g]. cbn [snd].
      rewrite requests_world_setMessage, requests_sent, Hlog, <- app_assoc.
      reflexivity.
    + left. exact Hsame.
Qed.

Lemma fetchMembers_step env s w :
  members_step env s w (Settings.fetchMembers env s w).
Proof.
  rewrite fetchMembers_run.
  destruct (call_outcome _ _ _) as [data|e] eqn:Hout.
  - split; [exists [members_get_call (token (appState w))]; reflexivity|].
    right. apply from_get_last. exact Hout.
  - split; [|left; reflexivity].
    exists [members_get_call (token (appState w))]. cbn [snd].
    rewrite requests_world_setMessage. reflexivity.
Qed.

Lemma handleAddMember_step env s w :
  members_step env s w (Settings.handleAddMember env s w).
Proof.
  destruct (String.eqb_spec (Settings.newEmail s) "") as [Hempty|Hne].
  - unfold Settings.handleAddMember. run. rewrite Hempty. run.
    apply members_step_setMessage.
  - rewrite (handleAddMember_run env s w Hne).
    destruct (call_outcome env w _) as [d|e].
    + apply (members_step_refetch env s
               (Settings.mk (Settings.members s) "" "" false)).
      reflexivity.
    + split; [|left; reflexivity].
      eexists. cbn [snd]. rewrite requests_world_setMessage, requests_sent.
      reflexivity.
Qed.

Lemma handleRemoveMember_request_step env memberId memberEmail s w :
  members_step env s w
    (Settings.handleRemoveMember_request env memberId memberEmail s w).
Proof.
  rewrite handleRemoveMember_request_run.
  destruct (call_outcome env w _) as [d|e].
  - apply (members_step_refetch env s s). reflexivity.
  - split; [|left; reflexivity].
    eexists. cbn [snd]. rewrite requests_world_setMessage, requests_sent.
    reflexivity.
Qed.

(** The [onClick] of a remove button that the JSX builds is a call of
    [handleRemoveMember]. *)
Lemma render_row_remove env l session x row h :
  Settings.render_row env l session x = Ok row ->
  Settings.row_remove row = Some h ->
  exists memberId memberEmail,
    h = Settings.handleRemoveMember env l memberId memberEmail.
Proof.
  unfold Settings.render_row.
  destruct (get_field x "id") as [id|]; [|discriminate].
  destruct (get_field x "email") as [email|];
    destruct (get_field x "phone_number") as [phone|]; try discriminate.
  intros [= <-]. cbn [Settings.row_remove].
  destruct (_ && _); [|discriminate].
  intros [= <-]. eauto.
Qed.

Lemma map_result_lookup {A B} (f : A -> result B) l rows i row :
  Settings.map_result f l = Ok rows -> rows !! i = Some row ->
  exists x, l !! i = Some x /\ f x = Ok row.
Proof.
  revert rows i. induction l as [|x l IH]; intros rows i; cbn [Settings.map_result].
  - intros [= <-]. discriminate.
  - destruct (f x) as [y|] eqn:Hy; [|discriminate].
    destruct (Settings.map_result f l) as [ys|]; [|discriminate].
    intros [= <-]. destruct i as [|i]; cbn.
    + intros [= <-]. eauto.
    + intros Hrow. destruct (IH ys i eq_refl Hrow) as (x' & Hx' & Hfx'). eauto.
Qed.

Lemma dispatch_step env e s w :
  members_step env s w (Settings.dispatch env e s w).
Proof.
  assert (Hskip : members_step env s w (Ok tt, s, w)).
  { split; [exists []; cbn [snd]; rewrite app_nil_r|left]; reflexivity. }
  unfold Settings.dispatch. run.
  destruct (Settings.controls env s _) as [view|err] eqn:Hview; [|exact Hskip].
  destruct e as [v|v| |i].
  - destruct (Settings.view_inputs_disabled view); [exact Hskip|].
    split; [exists []; cbn [snd]; rewrite app_nil_r|left]; reflexivity.
  - destruct (Settings.view_inputs_disabled view); [exact Hskip|].
    split; [exists []; cbn [snd]; rewrite app_nil_r|left]; reflexivity.
  - destruct (Settings.view_add_disabled view); [exact Hskip|].
    apply handleAddMember_step.
  - destruct (Settings.view_rows view !! i) as [row|] eqn:Hrow; [|exact Hskip].
    destruct (Settings.row_remove row) as [h|] eqn:Hh; [|exact Hskip].
    assert (Hcall : exists l memberId memberEmail,
               h = Settings.handleRemoveMember env l memberId memberEmail).
    { unfold Settings.controls in Hview.
      destruct (Settings.members s) as [| | | | |l|]; try discriminate;
        destruct (Settings.isLoading s);
        try discriminate;
        try (injection Hview as <-; destruct i; discriminate).
      destruct (Settings.map_result _ l) as [rows|] eqn:Hrows; [|discriminate].
      injection Hview as <-. cbn [Settings.view_rows] in Hrow.
      destruct (map_result_lookup _ _ _ _ _ Hrows Hrow) as (x & _ & Hx).
      destruct (render_row_remove _ _ _ _ _ _ Hx Hh) as (a & b & ->). eauto. }
    destruct Hcall as (l & a & b & ->).
    rewrite handleRemoveMember_sends_nothing. apply members_step_setMessage.
Qed.

Lemma settings_events_inv env events s w :
  members_inv env s w ->
  let out := settings_events env events s w in
  members_inv env out.1.2 out.2.
Proof.
  revert s w. induction events as [|e events IH]; intros s w Hinv; [exact Hinv|].
  cbn [settings_events]. unfold mbind, M_bind.
  pose proof (members_step_inv env s w _ Hinv (dispatch_step env e s w)) as Hd.
  destruct (Settings.dispatch env e s w) as [[[[]|err] s1] w1]; cbn [fst snd] in *.
  - apply IH, Hd.
  - exact Hd.
Qed.

(** C6.  When the POST of [handleAddMember] succeeds, and when the DELETE
    of the removal succeeds, the GET of the members endpoint is the next
    and last request sent, and the member list becomes what that GET
    settled to (it is left as it was if the GET throws).  Through a visit
    of the settings page, after the mount and any events, the member list
    is the initial empty array or a value that a GET of the members
    endpoint in the log settled to. *)
Theorem members_refetched env :
  (forall s w d,
     let post := members_post_call (Settings.newEmail s) (Settings.newPhone s)
                   (token (appState w)) in
     let get := members_get_call (token (appState w)) in
     let out := Settings.handleAddMember env s w in
     Settings.newEmail s <> "" ->
     call_outcome env w post = Ok d ->
     requests out.2 = requests w ++ [post; get]
     /\ Settings.members out.1.2
        = match settle_pending (net env (requests w ++ [post; get])) with
          | Ok data => data
          | Throw _ => Settings.members s
          end)
  /\ (forall memberId memberEmail s w d,
        let del := members_delete_call memberId (token (appState w)) in
        let get := members_get_call (token (appState w)) in
        let out := Settings.handleRemoveMember_request env memberId memberEmail s w in
        call_outcome env w del = Ok d ->
        requests out.2 = requests w ++ [del; get]
        /\ Settings.members out.1.2
           = match settle_pending (net env (requests w ++ [del; get])) with
             | Ok data => data
             | Throw _ => Settings.members s
             end)
  /\ (forall events w0,
        let out := settings_visit env events Settings.initial w0 in
        Settings.members out.1.2 = VArr []
        \/ from_get env (requests out.2) (Settings.members out.1.2)).
Proof.
  split; [|split].
  - intros s w d post get out Hne Hpost. unfold out.
    rewrite (handleAddMember_run env s w Hne). fold post get. rewrite Hpost.
    unfold call_outcome. rewrite requests_world_setMessage, requests_sent,
      <- app_assoc. cbn [app].
    destruct (settle_pending _); cbn [fst snd Settings.members];
      rewrite ?requests_world_setMessage, requests_sent,
        requests_world_setMessage, requests_sent, <- app_assoc; split; reflexivity.
  - intros memberId memberEmail s w d del get out Hdel. unfold out.
    rewrite handleRemoveMember_request_run. fold del get. rewrite Hdel.
    unfold call_outcome. rewrite requests_world_setMessage, requests_sent,
      <- app_assoc. cbn [app].
    destruct (settle_pending _); cbn [fst snd Settings.members];
      rewrite ?requests_world_setMessage, requests_sent,
        requests_world_setMessage, requests_sent, <- app_assoc; split; reflexivity.
  - intros events w0 out. unfold out, settings_visit, mbind, M_bind.
    assert (Hinit : members_inv env Settings.initial w0) by (left; reflexivity).
    pose proof (members_step_inv env _ _ _ Hinit
                  (fetchMembers_step env Settings.initial w0)) as Hf.
    destruct (Settings.fetchMembers env Settings.initial w0)
      as [[[[]|err] s1] w1]; cbn [fst snd] in *.
    + apply (settings_events_inv env events s1 w1 Hf).
    + exact Hf.
Qed.

Lemma members_refetched_witness :
  let env := server_always (mkResponse 200 "OK" (Ok (VArr [member 1 "admin@example.com"]))) in
  let s := Settings.mk (VArr []) "bob@example.com" "" false in
  let w := session_world "tok" "admin@example.com" in
  requests (Settings.handleAddMember env s w).2
  = [members_post_call "bob@example.com" "" (VStr "tok");
     members_get_call (VStr "tok")]
  /\ Settings.members (Settings.handleAddMember env s w).1.2
     = VArr [member 1 "admin@example.com"].
Proof.
  intros env s w.
  exact (proj1 (members_refetched env) s w
           (VArr [member 1 "admin@example.com"])
           ltac:(discriminate) eq_refl).
Defined.

(** ** App: the render and the start-up check of the cached token *)

Lemma deps_changed_isAuthLoading a b :
  isAuthLoading a = negb (isAuthLoading b) -> App.deps_changed a b = true.
Proof.
  intros H. unfold App.deps_changed. rewrite H.
  destruct (isAuthLoading b); cbn [negb Bool.eqb]; rewrite andb_false_r;
    reflexivity.
Qed.

Lemma render_truthy_token a :
  truthy (token a) = true -> App.render a = Throw (ReferenceError "LogOut").
Proof. intros H. unfold App.render. rewrite H. reflexivity. Qed.

Lemma render_falsy_token a :
  truthy (token a) = false -> App.render a = Ok (App.renderContent a).
Proof. intros H. unfold App.render. rewrite H. reflexivity. Qed.

(** What [checkToken] computes with a non-empty token in storage. *)
Lemma checkToken_run env w t :
  localStorage w !! "jwt_token" = Some t ->
  t <> "" ->
  let q := me_call (VStr t) in
  let revoke w :=
    with_app (put_isAuthLoading false)
      (with_app (put_token VNull)
         (with_localStorage (delete "jwt_token") w)) in
  App.checkToken env tt w
  = (Ok tt, tt,
     match call_outcome env w q with
     | Ok member =>
         match get_field member "email" with
         | Ok email =>
             with_app (put_isAuthLoading false)
               (with_app (put_currentPage PageDashboard)
                  (with_app (put_memberEmail email)
                     (with_app (put_token (VStr t)) (sent q w))))
         | Throw _ => revoke (with_app (put_token (VStr t)) (sent q w))
         end
     | Throw _ => revoke (sent q w)
     end).
Proof.
  intros Hst Ht q revoke.
  apply truthy_VStr in Ht. cbn [truthy] in Ht.
  unfold App.checkToken. run.
  rewrite Hst. run. rewrite Ht. run.
  rewrite apiCall_run. unfold q, me_call.
  destruct (call_outcome _ _ _) as [member|err]; run; [|reflexivity].
  destruct (get_field member "email") as [email|err]; reflexivity.
Qed.

(** And without one. *)
Lemma checkToken_run_no_token env w :
  localStorage w !! "jwt_token" = None \/ localStorage w !! "jwt_token" = Some "" ->
  App.checkToken env tt w = (Ok tt, tt, with_app (put_isAuthLoading false) w).
Proof.
  intros Hst. unfold App.checkToken. run.
  destruct Hst as [Hst|Hst]; rewrite Hst; reflexivity.
Qed.

(** With a non-empty token cached the first render throws, and mounting
    does nothing else. *)
Lemma mount_throws env w0 t :
  localStorage w0 !! "jwt_token" = Some t ->
  t <> "" ->
  appState w0 = App.initial (localStorage w0) ->
  App.render (appState w0) = Throw (ReferenceError "LogOut")
  /\ App.mount env tt w0 = (Throw (ReferenceError "LogOut"), tt, w0).
Proof.
  intros Hst Ht Happ.
  assert (Hrender : App.render (appState w0) = Throw (ReferenceError "LogOut")).
  { apply render_truthy_token. rewrite Happ. unfold App.initial. rewrite Hst.
    apply truthy_VStr, Ht. }
  split; [exact Hrender|].
  unfold App.mount. run. rewrite Hrender. reflexivity.
Qed.

(** C7, on the code.  On start-up with a non-empty token cached, the
    first render of [App] throws the ReferenceError of line 656.  Nothing
    is mounted and the effect that would revalidate the token does not
    run: whatever the identity lookup would answer, no request is sent,
    the token stays in storage and in the state, and [isAuthLoading] is
    never cleared.  [checkToken] on its own would send the identity lookup
    with that token. *)
Theorem startup_with_cached_token_throws env w0 t :
  localStorage w0 !! "jwt_token" = Some t ->
  t <> "" ->
  appState w0 = App.initial (localStorage w0) ->
  App.render (appState w0) = Throw (ReferenceError "LogOut")
  /\ App.mount env tt w0 = (Throw (ReferenceError "LogOut"), tt, w0)
  /\ requests (App.mount env tt w0).2 = requests w0
  /\ localStorage (App.mount env tt w0).2 !! "jwt_token" = Some t
  /\ token (appState (App.mount env tt w0).2) = VStr t
  /\ isAuthLoading (appState (App.mount env tt w0).2) = true
  /\ requests (App.checkToken env tt w0).2 = requests w0 ++ [me_call (VStr t)].
Proof.
  intros Hst Ht Happ.
  destruct (mount_throws env w0 t Hst Ht Happ) as [Hrender Hmount].
  rewrite Hmount. cbn [snd].
  split; [exact Hrender|]. split; [reflexivity|]. split; [reflexivity|].
  split; [exact Hst|].
  split; [rewrite Happ; unfold App.initial; rewrite Hst; reflexivity|].
  split; [rewrite Happ; reflexivity|].
  rewrite (checkToken_run env w0 t Hst Ht). cbn [snd].
  destruct (call_outcome _ _ _) as [member|err];
    [destruct (get_field member "email")|]; reflexivity.
Qed.

Lemma startup_with_cached_token_throws_witness :
  let env := server_always (mkResponse 200 "OK"
               (Ok (VObj [("email", VStr "admin@example.com")]))) in
  let w0 := mkWorld (App.initial {["jwt_token" := "tok"]})
              {["jwt_token" := "tok"]} [] 0 None [] in
  App.mount env tt w0 = (Throw (ReferenceError "LogOut"), tt, w0)
  /\ requests (App.mount env tt w0).2 = [].
Proof.
  intros env w0.
  pose proof (startup_with_cached_token_throws env w0 "tok" eq_refl
                ltac:(discriminate) eq_refl) as (_ & Hmount & Hlog & _).
  split; [exact Hmount|exact Hlog].
Defined.

(** ** Login: what the handlers compute *)

Lemma handleRequestOtp_run env s w :
  Login.email s <> "" ->
  let q := otp_request_call (Login.email s) in
  Login.handleRequestOtp env s w
  = match call_outcome env w q with
    | Ok _ =>
        (Ok tt, Login.mk (Login.email s) true (Login.otp s) false,
         world_setMessage
           (mkMessage "success"
              ("OTP request sent! Check your email: " +:+ Login.email s))
           (sent q w))
    | Throw e =>
        (Ok tt, Login.mk (Login.email s) (Login.otpMode s) (Login.otp s) false,
         world_setMessage (mkMessage "error" (Exn.message e)) (sent q w))
    end.
Proof.
  intros Hne. apply truthy_VStr in Hne. cbn [truthy] in Hne.
  unfold Login.handleRequestOtp, otp_request_call. run. rewrite Hne. run.
  rewrite apiCall_run. destruct (call_outcome _ _ _); reflexivity.
Qed.

Lemma handleVerifyOtp_run env s w :
  String.length (Login.otp s) = 6%nat ->
  let q := otp_verify_call (Login.email s) (Login.otp s) in
  let done := Login.mk (Login.email s) (Login.otpMode s) (Login.otp s) false in
  Login.handleVerifyOtp env s w
  = match call_outcome env w q with
    | Ok data =>
        match get_field data "access_token" with
        | Ok access_token =>
            (Ok tt, done,
             world_setMessage
               (mkMessage "success" "Access granted. Redirecting to Dashboard...")
               (with_app (put_memberEmail (VStr (Login.email s)))
                  (with_app (put_token access_token)
                     (with_localStorage (<["jwt_token" := ToString access_token]>)
                        (sent q w)))))
        | Throw e =>
            (Ok tt, done,
             world_setMessage (mkMessage "error" (Exn.message e)) (sent q w))
        end
    | Throw e =>
        (Ok tt, done,
         world_setMessage (mkMessage "error" (Exn.message e)) (sent q w))
    end.
Proof.
  intros Hlen. apply Nat.eqb_eq in Hlen.
  unfold Login.handleVerifyOtp, otp_verify_call. run. rewrite Hlen. run.
  rewrite apiCall_run. destruct (call_outcome _ _ _) as [data|e]; run;
    [|reflexivity].
  destruct (get_field data "access_token"); reflexivity.
Qed.

(** ** The login example *)

Lemma login_event_run env e s w s' w' :
  App.renderContent (appState w) = App.ScreenLogin ->
  Login.dispatch env e s w = (Ok tt, s', w') ->
  App.login_event env e s w
  = match App.render (appState w') with
    | Ok _ =>
        (Ok tt, s',
         if App.deps_changed (appState w) (appState w')
         then with_app App.route_effect w' else w')
    | Throw err => (Throw err, s', w')
    end.
Proof.
  intros Hscreen Hd. unfold App.login_event, App.with_effects. run.
  rewrite Hscreen. run. rewrite Hd.
  destruct (App.render (appState w')); reflexivity.
Qed.

Lemma route_effect_token a : token (App.route_effect a) = token a.
Proof.
  unfold App.route_effect.
  destruct (negb _); [destruct (_ && _)|]; reflexivity.
Qed.

Lemma route_effect_memberEmail a :
  memberEmail (App.route_effect a) = memberEmail a.
Proof.
  unfold App.route_effect.
  destruct (negb _); [destruct (_ && _)|]; reflexivity.
Qed.

Lemma calls_to_app endpoint log extra :
  calls_to endpoint (log ++ extra)
  = (calls_to endpoint log + calls_to endpoint extra)%nat.
Proof. unfold calls_to. rewrite filter_app, length_app. reflexivity. Qed.

(** C3, on the code.  From the login form of a start-up without session,
    typing admin@example.com, requesting the OTP (the request succeeding),
    typing 123456 and clicking verify: the requests sent are the OTP
    request and then the verify call, one call to the verify endpoint,
    whose body is {email: "admin@example.com", otp: "123456"}.  When the
    verify response is a 200 whose JSON has a non-empty string
    [access_token], that token is in [localStorage] under jwt_token and in
    the token state, and the member e-mail is admin@example.com.  The
    render of [App] that follows throws the ReferenceError of line 656:
    the routing effect does not run, the page is not set to the dashboard
    and no screen is shown. *)
Theorem otp_login_flow env w0 d response data t :
  token (appState w0) = VNull ->
  memberEmail (appState w0) = VStr "" ->
  isAuthLoading (appState w0) = false ->
  let q1 := otp_request_call "admin@example.com" in
  let q2 := otp_verify_call "admin@example.com" "123456" in
  call_outcome env w0 q1 = Ok d ->
  net env (requests w0 ++ [q1; q2]) = Ok response ->
  status response = 200 ->
  json response = Ok data ->
  get_field data "access_token" = Ok (VStr t) ->
  t <> "" ->
  let out := App.login_events env
               [Login.TypeEmail "admin@example.com"; Login.ClickRequestOtp;
                Login.TypeOtp "123456"; Login.ClickVerify]
               Login.initial w0 in
  requests out.2 = requests w0 ++ [q1; q2]
  /\ calls_to "/auth/otp/verify" (requests out.2)
     = S (calls_to "/auth/otp/verify" (requests w0))
  /\ body q2 = SendJson (VObj [("email", VStr "admin@example.com");
                               ("otp", VStr "123456")])
  /\ localStorage out.2 !! "jwt_token" = Some t
  /\ token (appState out.2) = VStr t
  /\ memberEmail (appState out.2) = VStr "admin@example.com"
  /\ out.1.1 = Throw (ReferenceError "LogOut")
  /\ App.render (appState out.2) = Throw (ReferenceError "LogOut")
  /\ currentPage (appState out.2) = currentPage (appState w0).
Proof.
  destruct w0 as [[tok page me msg auth] st log clock tm old].
  intros Htok Hme Hauth q1 q2 Hq1 Hnet Hstatus Hjson Htoken Hne out.
  cbn in Htok, Hme, Hauth. subst tok me auth.
  set (W0 := mkWorld (mkApp VNull page (VStr "") msg false) st log clock tm old) in *.
  set (W1 := world_setMessage
               (mkMessage "success"
                  "OTP request sent! Check your email: admin@example.com")
               (sent q1 W0)).
  assert (HW1 : appState W1
                = mkApp VNull page (VStr "")
                    (mkMessage "success"
                       "OTP request sent! Check your email: admin@example.com")
                    false).
  { unfold W1. rewrite app_world_setMessage. reflexivity. }
  assert (Hq2 : call_outcome env W1 q2 = Ok data).
  { unfold call_outcome, W1.
    rewrite requests_world_setMessage, requests_sent, <- app_assoc.
    cbn [app]. rewrite Hnet. cbn [settle_pending]. unfold apiCall_settle, ok.
    rewrite Hstatus, Hjson. reflexivity. }
  (* the four events, one after the other *)
  assert (H1 : App.login_event env (Login.TypeEmail "admin@example.com")
                 Login.initial W0
               = (Ok tt, Login.mk "admin@example.com" false "" false, W0)).
  { rewrite (login_event_run env _ _ _
               (Login.mk "admin@example.com" false "" false) W0); reflexivity. }
  assert (H2 : App.login_event env Login.ClickRequestOtp
                 (Login.mk "admin@example.com" false "" false) W0
               = (Ok tt, Login.mk "admin@example.com" true "" false, W1)).
  { rewrite (login_event_run env _ _ _
               (Login.mk "admin@example.com" true "" false) W1).
    - rewrite HW1. reflexivity.
    - reflexivity.
    - unfold Login.dispatch. run.
      rewrite handleRequestOtp_run by discriminate.
      cbn [Login.email]. fold q1. rewrite Hq1. reflexivity. }
  assert (H3 : App.login_event env (Login.TypeOtp "123456")
                 (Login.mk "admin@example.com" true "" false) W1
               = (Ok tt, Login.mk "admin@example.com" true "123456" false, W1)).
  { rewrite (login_event_run env _ _ _
               (Login.mk "admin@example.com" true "123456" false) W1).
    - rewrite HW1. reflexivity.
    - rewrite HW1. reflexivity.
    - reflexivity. }
  set (W2 := world_setMessage
               (mkMessage "success" "Access granted. Redirecting to Dashboard...")
               (with_app (put_memberEmail (VStr "admin@example.com"))
                  (with_app (put_token (VStr t))
                     (with_localStorage (<["jwt_token" := t]>) (sent q2 W1))))).
  assert (HW2 : appState W2
                = mkApp (VStr t) page (VStr "admin@example.com")
                    (mkMessage "success"
                       "Access granted. Redirecting to Dashboard...") false).
  { unfold W2. rewrite app_world_setMessage. reflexivity. }
  assert (Hrender : App.render (appState W2) = Throw (ReferenceError "LogOut")).
  { apply render_truthy_token. rewrite HW2. apply truthy_VStr, Hne. }
  assert (H4 : App.login_event env Login.ClickVerify
                 (Login.mk "admin@example.com" true "123456" false) W1
               = (Throw (ReferenceError "LogOut"),
                  Login.mk "admin@example.com" true "123456" false, W2)).
  { rewrite (login_event_run env _ _ _
               (Login.mk "admin@example.com" true "123456" false) W2).
    - rewrite Hrender. reflexivity.
    - rewrite HW1. reflexivity.
    - unfold Login.dispatch. run.
      rewrite handleVerifyOtp_run by reflexivity.
      cbn [Login.email Login.otp]. fold q2. rewrite Hq2, Htoken. reflexivity. }
  assert (Hout : out = (Throw (ReferenceError "LogOut"),
                        Login.mk "admin@example.com" true "123456" false, W2)).
  { unfold out. cbn [App.login_events]. unfold mbind, M_bind.
    rewrite H1, H2, H3, H4. reflexivity. }
  rewrite Hout. cbn [fst snd].
  assert (Hlog : requests W2 = log ++ [q1; q2]).
  { unfold W2.
    rewrite requests_world_setMessage. cbn [with_app with_localStorage requests].
    rewrite requests_sent. unfold W1.
    rewrite requests_world_setMessage, requests_sent, <- app_assoc. reflexivity. }
  split; [exact Hlog|]. split.
  { rewrite Hlog, calls_to_app. cbn [requests W0].
    change (calls_to "/auth/otp/verify" [q1; q2]) with 1%nat. lia. }
  split; [reflexivity|]. split.
  { unfold W2. rewrite localStorage_world_setMessage. cbn. apply lookup_insert_eq. }
  rewrite Hrender, HW2.
  repeat split.
Qed.

Lemma otp_login_flow_witness :
  let env := server_script
               [mkResponse 200 "OK" (Ok (VObj [("message", VStr "OTP sent")]));
                mkResponse 200 "OK" (Ok (VObj [("access_token", VStr "jwt-1")]))]
               (mkResponse 500 "Internal Server Error" (Ok (VObj []))) in
  let out := App.login_events env
               [Login.TypeEmail "admin@example.com"; Login.ClickRequestOtp;
                Login.TypeOtp "123456"; Login.ClickVerify]
               Login.initial empty_world in
  requests out.2 = [otp_request_call "admin@example.com";
                    otp_verify_call "admin@example.com" "123456"]
  /\ localStorage out.2 !! "jwt_token" = Some "jwt-1"
  /\ App.render (appState out.2) = Throw (ReferenceError "LogOut")
  /\ currentPage (appState out.2) = PageLogin.
Proof.
  intros env out.
  pose proof (otp_login_flow env empty_world
                (VObj [("message", VStr "OTP sent")])
                (mkResponse 200 "OK" (Ok (VObj [("access_token", VStr "jwt-1")])))
                (VObj [("access_token", VStr "jwt-1")]) "jwt-1"
                eq_refl eq_refl eq_refl eq_refl eq_refl eq_refl eq_refl eq_refl
                ltac:(discriminate))
    as (Hlog & _ & _ & Hst & _ & _ & _ & Hrender & Hpage).
  split; [exact Hlog|]. split; [exact Hst|]. split; [exact Hrender|exact Hpage].
Defined.

(** ** The banner after a call that throws *)

Lemma handleGenerateBills_throw env s w f e :
  Dashboard.file s = Some f ->
  call_outcome env w (generate_call f (token (appState w))) = Throw e ->
  (Dashboard.handleGenerateBills env s w).2
  = world_setMessage (mkMessage "error" (Exn.message e))
      (sent (generate_call f (token (appState w))) w).
Proof.
  intros Hf Hq. unfold Dashboard.handleGenerateBills, generate_call in *. run.
  rewrite Hf. run. rewrite apiCall_run, Hq. reflexivity.
Qed.

Lemma handleRegister_throw env s w e :
  Registration.flatNo s <> "" ->
  Registration.chatId s <> "" ->
  call_outcome env w
    (register_call (Registration.flatNo s) (Registration.chatId s)) = Throw e ->
  (Registration.handleRegister env s w).2
  = world_setMessage
      (mkMessage "error"
         ("Registration failed: " +:+ Exn.message e +:+
          ". Ensure your Flat No is correct."))
      (sent (register_call (Registration.flatNo s) (Registration.chatId s)) w).
Proof.
  intros Hf Hc Hq. apply truthy_VStr in Hf, Hc. cbn [truthy] in Hf, Hc.
  unfold Registration.handleRegister, register_call in *. run.
  rewrite Hf, Hc. run. rewrite apiCall_run, Hq. reflexivity.
Qed.

(** C8 as stated fails: when the POST of [handleAddMember] throws, the
    banner text is the thrown message behind a fixed prefix, not the
    message itself. *)
Lemma banner_text_counterexample :
  let env := server_always (mkResponse 400 "Bad Request"
               (Ok (VObj [("detail", VStr "Member already exists")]))) in
  let s := Settings.mk (VArr [member 1 "admin@example.com"])
             "admin@example.com" "" false in
  let w := session_world "tok" "admin@example.com" in
  call_outcome env w (members_post_call "admin@example.com" "" (VStr "tok"))
  = Throw (Error "Member already exists")
  /\ text (message (appState (Settings.handleAddMember env s w).2))
     = "Failed to add member: Member already exists"
  /\ text (message (appState (Settings.handleAddMember env s w).2))
     <> Exn.message (Error "Member already exists").
Proof.
  repeat split. discriminate.
Qed.

(** C8, as amended.  Whenever the API call of a handler throws, the error
    banner holds the thrown message: the message itself after
    [handleRequestOtp], [handleVerifyOtp] and [handleGenerateBills]; the
    message behind the fixed text of the handler after [fetchMembers], the
    POST of [handleAddMember], the DELETE of the removal and
    [handleRegister], and behind the text of [fetchMembers] when the
    re-fetch after an add or a removal throws.  In each case a banner
    with a non-empty text is displayed, its timeout is due 5000 ms later,
    and once that time has come the message is empty and nothing is
    displayed.  The start-up shows no message when the identity lookup
    would throw, and [checkToken] sets none when its call throws. *)
Theorem api_errors_reach_banner env :
  (forall s w e,
     Login.email s <> "" ->
     call_outcome env w (otp_request_call (Login.email s)) = Throw e ->
     shows_error (Exn.message e) (Login.handleRequestOtp env s w).2)
  /\ (forall s w e,
        String.length (Login.otp s) = 6%nat ->
        call_outcome env w (otp_verify_call (Login.email s) (Login.otp s))
        = Throw e ->
        shows_error (Exn.message e) (Login.handleVerifyOtp env s w).2)
  /\ (forall s w f e,
        Dashboard.file s = Some f ->
        call_outcome env w (generate_call f (token (appState w))) = Throw e ->
        shows_error (Exn.message e) (Dashboard.handleGenerateBills env s w).2)
  /\ (forall s w e,
        call_outcome env w (members_get_call (token (appState w))) = Throw e ->
        shows_error ("Failed to load committee members: " +:+ Exn.message e)
          (Settings.fetchMembers env s w).2)
  /\ (forall s w e,
        let post := members_post_call (Settings.newEmail s) (Settings.newPhone s)
                      (token (appState w)) in
        let get := members_get_call (token (appState w)) in
        Settings.newEmail s <> "" ->
        (call_outcome env w post = Throw e ->
         shows_error ("Failed to add member: " +:+ Exn.message e)
           (Settings.handleAddMember env s w).2)
        /\ (forall d,
              call_outcome env w post = Ok d ->
              settle_pending (net env (requests w ++ [post; get])) = Throw e ->
              shows_error ("Failed to load committee members: " +:+ Exn.message e)
                (Settings.handleAddMember env s w).2))
  /\ (forall memberId memberEmail s w e,
        let del := members_delete_call memberId (token (appState w)) in
        let get := members_get_call (token (appState w)) in
        (call_outcome env w del = Throw e ->
         shows_error ("Failed to remove member: " +:+ Exn.message e)
           (Settings.handleRemoveMember_request env memberId memberEmail s w).2)
        /\ (forall d,
              call_outcome env w del = Ok d ->
              settle_pending (net env (requests w ++ [del; get])) = Throw e ->
              shows_error ("Failed to load committee members: " +:+ Exn.message e)
                (Settings.handleRemoveMember_request env memberId memberEmail s w).2))
  /\ (forall s w e,
        Registration.flatNo s <> "" ->
        Registration.chatId s <> "" ->
        call_outcome env w
          (register_call (Registration.flatNo s) (Registration.chatId s))
        = Throw e ->
        shows_error
          ("Registration failed: " +:+ Exn.message e +:+
           ". Ensure your Flat No is correct.")
          (Registration.handleRegister env s w).2)
  /\ (forall w0 t e,
        localStorage w0 !! "jwt_token" = Some t ->
        t <> "" ->
        appState w0 = App.initial (localStorage w0) ->
        call_outcome env w0 (me_call (VStr t)) = Throw e ->
        message (appState (App.mount env tt w0).2) = no_message
        /\ timer (App.mount env tt w0).2 = timer w0)
  /\ (forall w t e,
        localStorage w !! "jwt_token" = Some t ->
        t <> "" ->
        call_outcome env w (me_call (VStr t)) = Throw e ->
        message (appState (App.checkToken env tt w).2) = message (appState w)
        /\ timer (App.checkToken env tt w).2 = timer w).
Proof.
  split; [|split; [|split; [|split; [|split; [|split; [|split; [|split]]]]]]].
  - intros s w e Hne Hq. rewrite (handleRequestOtp_run env s w Hne), Hq.
    apply world_setMessage_shows_error.
  - intros s w e Hlen Hq. rewrite (handleVerifyOtp_run env s w Hlen), Hq.
    apply world_setMessage_shows_error.
  - intros s w f e Hf Hq. rewrite (handleGenerateBills_throw env s w f e Hf Hq).
    apply world_setMessage_shows_error.
  - intros s w e Hq. rewrite fetchMembers_run, Hq.
    apply world_setMessage_shows_error.
  - intros s w e post get Hne. split.
    + intros Hq. rewrite (handleAddMember_run env s w Hne). fold post.
      rewrite Hq. apply world_setMessage_shows_error.
    + intros d Hpost Hget. rewrite (handleAddMember_run env s w Hne).
      fold post get. rewrite Hpost. unfold call_outcome at 1.
      rewrite requests_world_setMessage, requests_sent, <- app_assoc.
      cbn [app]. rewrite Hget. apply world_setMessage_shows_error.
  - intros memberId memberEmail s w e del get. split.
    + intros Hq. rewrite handleRemoveMember_request_run. fold del.
      rewrite Hq. apply world_setMessage_shows_error.
    + intros d Hdel Hget. rewrite handleRemoveMember_request_run.
      fold del get. rewrite Hdel. unfold call_outcome at 1.
      rewrite requests_world_setMessage, requests_sent, <- app_assoc.
      cbn [app]. rewrite Hget. apply world_setMessage_shows_error.
  - intros s w e Hf Hc Hq. rewrite (handleRegister_throw env s w e Hf Hc Hq).
    apply world_setMessage_shows_error.
  - intros w0 t e Hst Ht Happ _.
    rewrite (proj2 (mount_throws env w0 t Hst Ht Happ)). cbn [snd].
    rewrite Happ. split; reflexivity.
  - intros w t e Hst Ht Hq.
    rewrite (checkToken_run env w t Hst Ht). cbn [snd].
    rewrite Hq. split; reflexivity.
Qed.

Lemma api_errors_reach_banner_witness :
  let env := server_always (mkResponse 403 "Forbidden"
               (Ok (VObj [("detail", VStr "Email not authorized")]))) in
  let s := Login.mk "guest@example.com" false "" false in
  shows_error "Email not authorized" (Login.handleRequestOtp env s empty_world).2.
Proof.
  intros env s.
  exact (proj1 (api_errors_reach_banner env) s empty_world
           (Error "Email not authorized") ltac:(discriminate) eq_refl).
Defined.

(** * Further properties of the components *)

(** ** Requests in order *)

(** A property of each request of [extra1 ++ extra2], given the requests
    before it, follows from the property on each part. *)
Lemma requests_in_order (P : list Request -> Request -> Prop) log extra1 extra2 :
  (forall i q, extra1 !! i = Some q -> P (log ++ take i extra1) q) ->
  (forall i q, extra2 !! i = Some q -> P ((log ++ extra1) ++ take i extra2) q) ->
  forall i q, (extra1 ++ extra2) !! i = Some q ->
              P (log ++ take i (extra1 ++ extra2)) q.
Proof.
  intros H1 H2 i q Hq.
  destruct (decide (i < length extra1)%nat) as [Hlt|Hge].
  - rewrite lookup_app_l in Hq by exact Hlt.
    rewrite take_app_le by lia. apply H1, Hq.
  - rewrite lookup_app_r in Hq by lia.
    rewrite take_app_ge by lia. rewrite app_assoc. apply H2, Hq.
Qed.

Lemma unauthenticated_call endpoint meth b :
  headers (apiCall_request endpoint meth b VNull) !! "Authorization" = None.
Proof.
  unfold apiCall_request. cbn [headers truthy].
  destruct b; [rewrite lookup_insert_ne by discriminate|]; apply lookup_empty.
Qed.

Lemma authenticated_call endpoint meth b tok :
  headers (apiCall_request endpoint meth b tok) !! "Authorization" = bearer tok.
Proof.
  unfold apiCall_request, bearer. cbn [headers].
  destruct (truthy tok).
  - apply lookup_insert_eq.
  - destruct b; [rewrite lookup_insert_ne by discriminate|]; apply lookup_empty.
Qed.

(** ** Login: the code form and the requests of the form *)

Lemma otp_granted_app env log extra e :
  otp_granted env log e -> otp_granted env (log ++ extra) e.
Proof.
  intros (pre & post & d & -> & Hd).
  exists pre, (post ++ extra), d. split; [|exact Hd].
  rewrite <- app_assoc. reflexivity.
Qed.

Lemma login_inv_app env s w w' extra :
  requests w' = requests w ++ extra ->
  login_inv env s w -> login_inv env s w'.
Proof.
  intros Hlog [Hwf Hmode]. split; [exact Hwf|].
  intros Hm. rewrite Hlog. apply otp_granted_app, Hmode, Hm.
Qed.

(** One event of the form keeps [login_inv] and sends requests that are
    [login_request_ok], each given the requests before it. *)
Lemma dispatch_login_step env e s w :
  login_inv env s w ->
  let out := Login.dispatch env e s w in
  login_inv env out.1.2 out.2
  /\ exists extra,
       requests out.2 = requests w ++ extra
       /\ forall i q, extra !! i = Some q ->
            login_request_ok env (requests w ++ take i extra) q.
Proof.
  intros Hinv out.
  assert (Hnone : forall s' m,
            login_inv env s' w ->
            login_inv env s' (world_setMessage m w)
            /\ exists extra,
                 requests (world_setMessage m w) = requests w ++ extra
                 /\ forall i q, extra !! i = Some q ->
                      login_request_ok env (requests w ++ take i extra) q).
  { intros s' m Hinv'. split.
    - apply (login_inv_app env s' w _ []); [|exact Hinv'].
      rewrite requests_world_setMessage, app_nil_r. reflexivity.
    - exists []. rewrite requests_world_setMessage, app_nil_r.
      split; [reflexivity|]. intros i q Hq. destruct i; discriminate Hq. }
  assert (Hidle : forall s',
            login_inv env s' w ->
            login_inv env s' w
            /\ exists extra,
                 requests w = requests w ++ extra
                 /\ forall i q, extra !! i = Some q ->
                      login_request_ok env (requests w ++ take i extra) q).
  { intros s' Hinv'. split; [exact Hinv'|].
    exists []. rewrite app_nil_r.
    split; [reflexivity|]. intros i q Hq. destruct i; discriminate Hq. }
  assert (Hsent : forall s' w' q,
            requests w' = requests w ++ [q] ->
            login_inv env s' w' ->
            login_request_ok env (requests w) q ->
            login_inv env s' w'
            /\ exists extra,
                 requests w' = requests w ++ extra
                 /\ forall i q', extra !! i = Some q' ->
                      login_request_ok env (requests w ++ take i extra) q').
  { intros s' w' q Hlog Hinv' Hq. split; [exact Hinv'|].
    exists [q]. split; [exact Hlog|].
    intros [|i] q' Hq'; cbn in Hq'; [|discriminate Hq'].
    injection Hq' as <-. cbn [take]. rewrite app_nil_r. exact Hq. }
  pose proof Hinv as [Hwf Hmode].
  unfold out, Login.dispatch. run.
  destruct (Login.isLoading s) eqn:Hl; [apply Hidle, Hinv|].
  destruct e as [v| |v| |]; destruct (Login.otpMode s) eqn:Hm; run;
    try (apply Hidle, Hinv).
  - (* the e-mail is typed *)
    apply Hidle. split; [exact Hwf|]. cbn. rewrite Hm. discriminate.
  - (* the OTP is requested *)
    destruct (String.eqb_spec (Login.email s) "") as [Hempty|Hne].
    + unfold Login.handleRequestOtp. run. rewrite Hempty. run.
      apply Hnone, Hinv.
    + rewrite (handleRequestOtp_run env s w Hne).
      assert (Hq : login_request_ok env (requests w)
                     (otp_request_call (Login.email s))).
      { left. eauto. }
      destruct (call_outcome env w _) as [d|err] eqn:Hout; cbn [fst snd].
      * apply (Hsent _ _ (otp_request_call (Login.email s)));
          [rewrite requests_world_setMessage; reflexivity| |exact Hq].
        split; [exact Hwf|]. intros _. cbn [fst snd Login.email].
        rewrite requests_world_setMessage, requests_sent.
        exists (requests w), [], d. split; [reflexivity|exact Hout].
      * apply (Hsent _ _ (otp_request_call (Login.email s)));
          [rewrite requests_world_setMessage; reflexivity| |exact Hq].
        split; [exact Hwf|]. cbn [fst snd Login.otpMode]. congruence.
  - (* the code is typed *)
    destruct (Nat.leb_spec (String.length v) Login.OTP_MAX_LENGTH) as [Hv|Hv];
      run; [|apply Hidle, Hinv].
    apply Hidle. split.
    + split; [apply strip_non_digits_digits|].
      pose proof (strip_non_digits_length v). cbn [Login.otp]. lia.
    + intros _. apply Hmode. reflexivity.
  - (* the code is verified *)
    destruct (Nat.eq_dec (String.length (Login.otp s)) 6%nat) as [Hlen|Hlen].
    + rewrite (handleVerifyOtp_run env s w Hlen).
      assert (Hq : login_request_ok env (requests w)
                     (otp_verify_call (Login.email s) (Login.otp s))).
      { right. exists (Login.email s), (Login.otp s).
        repeat split; [exact Hlen|apply Hwf|apply Hmode; reflexivity]. }
      assert (Hkeep : forall w',
                requests w' = requests w
                         ++ [otp_verify_call (Login.email s) (Login.otp s)] ->
                login_inv env
                  (Login.mk (Login.email s) (Login.otpMode s) (Login.otp s) false)
                  w').
      { intros w' Hlog. apply (login_inv_app env _ w w' _ Hlog).
        split; [exact Hwf|]. intros _. apply Hmode. reflexivity. }
      destruct (call_outcome env w _) as [data|err];
        [destruct (get_field data "access_token")|];
        cbn [fst snd];
        apply (Hsent _ _ (otp_verify_call (Login.email s) (Login.otp s)));
        try exact Hq;
        try (rewrite requests_world_setMessage; reflexivity);
        apply Hkeep; rewrite requests_world_setMessage; reflexivity.
    + rewrite (handleVerifyOtp_blocked env s w Hlen). apply Hnone, Hinv.
  - (* back to the e-mail form *)
    apply Hidle. split; [exact Hwf|]. cbn. discriminate.
Qed.

Lemma run_login_step env events s w :
  login_inv env s w ->
  let out := Login.run env events s w in
  login_inv env out.1.2 out.2
  /\ exists extra,
       requests out.2 = requests w ++ extra
       /\ forall i q, extra !! i = Some q ->
            login_request_ok env (requests w ++ take i extra) q.
Proof.
  revert s w. induction events as [|e events IH]; intros s w Hinv.
  - split; [exact Hinv|]. exists []. split; [symmetry; apply app_nil_r|].
    intros i q Hq. destruct i; discriminate Hq.
  - cbn [Login.run]. unfold mbind, M_bind.
    pose proof (dispatch_login_step env e s w Hinv) as Hd. cbn zeta in Hd.
    destruct (Login.dispatch env e s w) as [[[[]|err] s1] w1];
      cbn [fst snd] in *; [|exact Hd].
    destruct Hd as [Hinv1 (extra1 & Hlog1 & Hok1)].
    destruct (IH s1 w1 Hinv1) as [Hinv2 (extra2 & Hlog2 & Hok2)].
    split; [exact Hinv2|].
    exists (extra1 ++ extra2). split.
    + rewrite Hlog2, Hlog1, app_assoc. reflexivity.
    + apply (requests_in_order (login_request_ok env)); [exact Hok1|].
      rewrite <- Hlog1. exact Hok2.
Qed.

Lemma login_inv_initial env w : login_inv env Login.initial w.
Proof.
  split; [split; [reflexivity|cbn; lia]|]. discriminate.
Qed.

(** X1.  Through any events of the login form, when the code form is
    shown the log holds an OTP request for the e-mail of the form that
    settled without throwing. *)
Theorem otp_form_needs_granted_request env events w0 :
  let out := Login.run env events Login.initial w0 in
  Login.otpMode out.1.2 = true ->
  otp_granted env (requests out.2) (Login.email out.1.2).
Proof.
  intros out.
  exact (proj2 (proj1 (run_login_step env events Login.initial w0
                         (login_inv_initial env w0)))).
Qed.

Lemma otp_form_needs_granted_request_witness :
  let env := server_always (mkResponse 200 "OK" (Ok (VObj []))) in
  otp_granted env
    [otp_request_call "admin@example.com"] "admin@example.com".
Proof.
  intros env.
  exact (otp_form_needs_granted_request env
           [Login.TypeEmail "admin@example.com"; Login.ClickRequestOtp]
           empty_world eq_refl).
Defined.

(** X2.  Through any events of the login form, the requests sent are, in
    order: OTP requests for a non-empty e-mail, and verify calls whose
    code is six digits and whose e-mail had an OTP request granted
    earlier in the log; none of them carries an [Authorization] header. *)
Theorem login_requests_wellformed env events w0 :
  let out := Login.run env events Login.initial w0 in
  exists extra,
    requests out.2 = requests w0 ++ extra
    /\ forall i q, extra !! i = Some q ->
         login_request_ok env (requests w0 ++ take i extra) q
         /\ headers q !! "Authorization" = None.
Proof.
  intros out.
  destruct (run_login_step env events Login.initial w0
              (login_inv_initial env w0)) as [_ (extra & Hlog & Hok)].
  exists extra. split; [exact Hlog|].
  intros i q Hq. split; [apply Hok, Hq|].
  destruct (Hok i q Hq) as [(e & _ & ->)|(e & o & -> & _)];
    apply unauthenticated_call.
Qed.

Lemma login_requests_wellformed_witness :
  let env := server_always (mkResponse 200 "OK" (Ok (VObj []))) in
  exists extra,
    requests (Login.run env
                [Login.TypeEmail "admin@example.com"; Login.ClickRequestOtp;
                 Login.TypeOtp "12x3456"; Login.ClickVerify]
                Login.initial empty_world).2 = extra
    /\ forall i q, extra !! i = Some q -> headers q !! "Authorization" = None.
Proof.
  intros env.
  destruct (login_requests_wellformed env
              [Login.TypeEmail "admin@example.com"; Login.ClickRequestOtp;
               Login.TypeOtp "12x3456"; Login.ClickVerify] empty_world)
    as (extra & Hlog & Hok).
  exists extra. split; [exact Hlog|].
  intros i q Hq. exact (proj2 (Hok i q Hq)).
Defined.

(** ** App: start-up, logout and reload *)

Lemma mount_run_no_token env st log clock tm old :
  st !! "jwt_token" = None \/ st !! "jwt_token" = Some "" ->
  let W0 := mkWorld (App.initial st) st log clock tm old in
  App.mount env tt W0
  = (Ok tt, tt, with_app App.route_effect (with_app (put_isAuthLoading false) W0)).
Proof.
  intros Hst W0.
  assert (Hfalsy : truthy (token (App.initial st)) = false).
  { unfold App.initial. destruct Hst as [-> | ->]; reflexivity. }
  unfold App.mount. run.
  rewrite (render_falsy_token _ Hfalsy).
  unfold App.with_effects. run.
  rewrite (checkToken_run_no_token env W0 Hst). run.
  rewrite (render_falsy_token (put_isAuthLoading false (App.initial st)) Hfalsy).
  run. rewrite deps_changed_isAuthLoading by reflexivity. reflexivity.
Qed.

Lemma route_effect_isAuthLoading a :
  isAuthLoading (App.route_effect a) = isAuthLoading a.
Proof.
  unfold App.route_effect.
  destruct (negb _); [destruct (_ && _)|]; reflexivity.
Qed.

Lemma renderContent_route_login a :
  isAuthLoading a = false ->
  truthy (token a) && truthy (memberEmail a) = false ->
  currentPage (App.route_effect a) = PageLogin
  /\ App.renderContent (App.route_effect a) = App.ScreenLogin.
Proof.
  intros Hl Hs. unfold App.route_effect. rewrite Hl, Hs. cbn [negb].
  unfold App.renderContent. cbn [put_currentPage isAuthLoading token memberEmail
    currentPage]. rewrite Hl. split; [reflexivity|].
  destruct (truthy (token a)), (truthy (memberEmail a));
    try discriminate Hs; reflexivity.
Qed.

(** X3.  On start-up with no token cached, or with the empty string
    cached, nothing is sent, storage is left as it is, the loading screen
    ends and the login form is shown. *)
Theorem mount_without_token env w0 :
  appState w0 = App.initial (localStorage w0) ->
  localStorage w0 !! "jwt_token" = None
  \/ localStorage w0 !! "jwt_token" = Some "" ->
  let w := (App.mount env tt w0).2 in
  requests w = requests w0
  /\ localStorage w = localStorage w0
  /\ isAuthLoading (appState w) = false
  /\ App.renderContent (appState w) = App.ScreenLogin
  /\ App.render (appState w) = Ok App.ScreenLogin.
Proof.
  destruct w0 as [a st log clock tm old]. cbn [localStorage appState requests].
  intros -> Hst. rewrite (mount_run_no_token env st log clock tm old Hst).
  cbn [snd with_app requests localStorage appState].
  rewrite route_effect_isAuthLoading.
  assert (Hfalsy : truthy (token (App.initial st)) = false).
  { unfold App.initial. destruct Hst as [-> | ->]; reflexivity. }
  assert (Hscreen : App.renderContent
                      (App.route_effect (put_isAuthLoading false (App.initial st)))
                    = App.ScreenLogin).
  { apply renderContent_route_login; [reflexivity|].
    cbn [put_isAuthLoading token]. rewrite Hfalsy. reflexivity. }
  repeat split; [exact Hscreen|].
  rewrite render_falsy_token; [rewrite Hscreen; reflexivity|].
  rewrite route_effect_token. exact Hfalsy.
Qed.

Lemma mount_without_token_witness :
  requests (App.mount (server_always (mkResponse 200 "OK" (Ok VNull))) tt
              (mkWorld (App.initial {["jwt_token" := ""]})
                 {["jwt_token" := ""]} [] 0 None [])).2 = [].
Proof.
  exact (proj1 (mount_without_token
                  (server_always (mkResponse 200 "OK" (Ok VNull)))
                  (mkWorld (App.initial {["jwt_token" := ""]})
                     {["jwt_token" := ""]} [] 0 None [])
                  eq_refl (or_intror eq_refl))).
Defined.

(** X22.  No render of [App] shows a screen of a session.  A render that
    returns shows the loading screen or the login form; and for every
    state in which [renderContent] would choose the dashboard, the
    settings page or the registration form, the render throws the
    ReferenceError of line 656 before [renderContent] is called. *)
Theorem session_screens_never_render a :
  (forall screen,
     App.render a = Ok screen ->
     screen = App.ScreenLoading \/ screen = App.ScreenLogin)
  /\ (App.renderContent a <> App.ScreenLoading ->
      App.renderContent a <> App.ScreenLogin ->
      App.render a = Throw (ReferenceError "LogOut")).
Proof.
  unfold App.render, App.renderContent.
  destruct (truthy (token a)) eqn:Htok; cbn [negb orb].
  - split; [discriminate|reflexivity].
  - split.
    + intros screen [= <-]. destruct (isAuthLoading a); [left|right]; reflexivity.
    + intros Hloading Hlogin. destruct (isAuthLoading a); contradiction.
Qed.

Lemma session_screens_never_render_witness :
  App.render (appState (session_world "tok" "admin@example.com"))
  = Throw (ReferenceError "LogOut").
Proof.
  refine (proj2 (session_screens_never_render
                   (appState (session_world "tok" "admin@example.com"))) _ _);
    discriminate.
Defined.

(** X4.  [checkToken] run with a non-empty token in storage, the identity
    lookup being answered with a 204: the answer counts as a failure.  The
    call gives [null], reading its [email] throws inside the [then]
    callback, and the [catch] callback removes the token from storage and
    from the state; the render of that state shows the login form. *)
Theorem checkToken_empty_identity_revokes env w t response :
  localStorage w !! "jwt_token" = Some t ->
  t <> "" ->
  net env (requests w ++ [me_call (VStr t)]) = Ok response ->
  status response = 204 ->
  let w' := (App.checkToken env tt w).2 in
  requests w' = requests w ++ [me_call (VStr t)]
  /\ localStorage w' !! "jwt_token" = None
  /\ token (appState w') = VNull
  /\ isAuthLoading (appState w') = false
  /\ App.render (appState w') = Ok App.ScreenLogin.
Proof.
  intros Hst Ht Hnet H204.
  rewrite (checkToken_run env w t Hst Ht). cbn [snd].
  unfold call_outcome. rewrite Hnet. cbn [settle_pending].
  unfold apiCall_settle. rewrite H204. cbn [Z.eqb Pos.eqb get_field].
  cbn [with_app with_localStorage localStorage appState requests sent
       with_requests].
  split; [reflexivity|]. split; [apply lookup_delete_eq|]. repeat split.
Qed.

Lemma checkToken_empty_identity_revokes_witness :
  localStorage (App.checkToken (server_always (mkResponse 204 "No Content" (Ok VNull)))
                  tt (session_world "tok" "admin@example.com")).2 !! "jwt_token"
  = None.
Proof.
  exact (proj1 (proj2 (checkToken_empty_identity_revokes
                  (server_always (mkResponse 204 "No Content" (Ok VNull)))
                  (session_world "tok" "admin@example.com")
                  "tok" (mkResponse 204 "No Content" (Ok VNull))
                  eq_refl ltac:(discriminate) eq_refl eq_refl))).
Defined.

(** X5.  [checkToken] run with a non-empty token in storage, the identity
    lookup succeeding with a body whose [email] is missing or falsy: the
    token stays in storage and in the state although no member e-mail is
    known.  [renderContent] would choose the login form for that state;
    the render of [App] throws, as for every truthy token. *)
Theorem checkToken_identity_without_email env w t member email :
  localStorage w !! "jwt_token" = Some t ->
  t <> "" ->
  call_outcome env w (me_call (VStr t)) = Ok member ->
  get_field member "email" = Ok email ->
  truthy email = false ->
  let w' := (App.checkToken env tt w).2 in
  localStorage w' !! "jwt_token" = Some t
  /\ token (appState w') = VStr t
  /\ memberEmail (appState w') = email
  /\ isAuthLoading (appState w') = false
  /\ App.renderContent (appState w') = App.ScreenLogin
  /\ App.render (appState w') = Throw (ReferenceError "LogOut").
Proof.
  intros Hst Ht Hq Hemail Hfalsy.
  rewrite (checkToken_run env w t Hst Ht). cbn [snd].
  rewrite Hq, Hemail.
  cbn [with_app localStorage appState sent with_requests].
  split; [exact Hst|]. do 3 (split; [reflexivity|]). split.
  - unfold App.renderContent.
    cbn [put_isAuthLoading put_currentPage put_memberEmail put_token token
         memberEmail isAuthLoading].
    rewrite Hfalsy, orb_true_r. reflexivity.
  - apply render_truthy_token.
    cbn [put_isAuthLoading put_currentPage put_memberEmail put_token token].
    apply truthy_VStr, Ht.
Qed.

Lemma checkToken_identity_without_email_witness :
  let w' := (App.checkToken (server_always (mkResponse 200 "OK" (Ok (VObj []))))
               tt (session_world "tok" "admin@example.com")).2 in
  localStorage w' !! "jwt_token" = Some "tok"
  /\ memberEmail (appState w') = VUndefined.
Proof.
  intros w'.
  pose proof (checkToken_identity_without_email
                (server_always (mkResponse 200 "OK" (Ok (VObj []))))
                (session_world "tok" "admin@example.com")
                "tok" (VObj []) VUndefined
                eq_refl ltac:(discriminate) eq_refl eq_refl eq_refl)
    as (Hst & _ & Hemail & _).
  split; [exact Hst|exact Hemail].
Defined.

(** X6.  Whatever the storage holds and whatever the network answers,
    [checkToken] returns normally, sends at most one request, which is
    the identity lookup with the stored token, and ends with
    [isAuthLoading] cleared. *)
Theorem checkToken_always_settles env w :
  let out := App.checkToken env tt w in
  out.1.1 = Ok tt
  /\ isAuthLoading (appState out.2) = false
  /\ (requests out.2 = requests w
      \/ exists t, localStorage w !! "jwt_token" = Some t
                   /\ t <> ""
                   /\ requests out.2 = requests w ++ [me_call (VStr t)]).
Proof.
  intros out. unfold out.
  destruct (localStorage w !! "jwt_token") as [t|] eqn:Hst.
  - destruct (String.eqb_spec t "") as [->|Ht].
    + rewrite (checkToken_run_no_token env w (or_intror Hst)).
      repeat split. left. reflexivity.
    + rewrite (checkToken_run env w t Hst Ht). cbn [fst snd].
      destruct (call_outcome _ _ _) as [member|err];
        [destruct (get_field member "email")|];
        (repeat split; right; exists t; repeat split; assumption).
  - rewrite (checkToken_run_no_token env w (or_introl Hst)).
    repeat split. left. reflexivity.
Qed.

(** X7.  A logout removes the token from storage, clears the token and
    the member e-mail, sets the page to login and the success message, and
    sends nothing; when the start-up check had ended the login form is
    shown; and a reload after it sends nothing and shows the login form. *)
Theorem logout_ends_session env w :
  let w' := (App.logout tt w).2 in
  localStorage w' !! "jwt_token" = None
  /\ token (appState w') = VNull
  /\ memberEmail (appState w') = VStr ""
  /\ currentPage (appState w') = PageLogin
  /\ message (appState w')
     = mkMessage "success" "You have been securely logged out."
  /\ requests w' = requests w
  /\ (isAuthLoading (appState w) = false ->
      App.renderContent (appState w') = App.ScreenLogin)
  /\ requests (App.mount env tt (App.reload w')).2 = requests w
  /\ App.renderContent (appState (App.mount env tt (App.reload w')).2)
     = App.ScreenLogin
  /\ (isAuthLoading (appState w) = false ->
      App.render (appState w') = Ok App.ScreenLogin)
  /\ App.render (appState (App.mount env tt (App.reload w')).2)
     = Ok App.ScreenLogin.
Proof.
  intros w'.
  set (m := mkMessage "success" "You have been securely logged out.").
  set (w1 := world_setMessage m
               (with_app (put_currentPage PageLogin)
                  (with_app (put_memberEmail (VStr ""))
                     (with_app (put_token VNull)
                        (with_localStorage (delete "jwt_token") w))))).
  assert (Happ : appState w1
                 = mkApp VNull PageLogin (VStr "") m (isAuthLoading (appState w))).
  { unfold w1. rewrite app_world_setMessage. reflexivity. }
  assert (Hst : localStorage w1 = delete "jwt_token" (localStorage w)).
  { unfold w1. rewrite localStorage_world_setMessage. reflexivity. }
  assert (Hlog : requests w1 = requests w).
  { unfold w1. rewrite requests_world_setMessage. reflexivity. }
  assert (Hroute : App.route_effect (appState w1) = appState w1).
  { rewrite Happ. unfold App.route_effect. cbn.
    destruct (isAuthLoading (appState w)); reflexivity. }
  assert (Hw' : appState w' = appState w1 /\ localStorage w' = localStorage w1
                /\ requests w' = requests w1).
  { unfold w', App.logout, App.with_effects, App.handleLogout. run.
    fold m. fold w1.
    rewrite (render_falsy_token (appState w1)) by (rewrite Happ; reflexivity).
    run.
    destruct (App.deps_changed _ _); cbn [with_app appState localStorage requests];
      rewrite ?Hroute; repeat split. }
  destruct Hw' as (Ha & Hs & Hl).
  rewrite Ha, Hs, Hl, Happ, Hst, Hlog. cbn [token memberEmail currentPage message].
  assert (Hreload : App.renderContent
                      (appState (App.mount env tt (App.reload w')).2)
                    = App.ScreenLogin
                    /\ token (appState (App.mount env tt (App.reload w')).2)
                       = VNull).
  { unfold App.reload. rewrite Hs, Hst, Hl, Hlog.
    rewrite (mount_run_no_token env _ _ _ _ _ (or_introl (lookup_delete_eq _ _))).
    cbn [snd with_app appState]. split.
    - apply renderContent_route_login; [reflexivity|].
      unfold App.initial. rewrite lookup_delete_eq. reflexivity.
    - rewrite route_effect_token. unfold App.initial.
      rewrite lookup_delete_eq. reflexivity. }
  split; [apply lookup_delete_eq|]. repeat split.
  - intros Hauth. rewrite Hauth. reflexivity.
  - unfold App.reload. rewrite Hs, Hst, Hl, Hlog.
    rewrite (mount_run_no_token env _ _ _ _ _ (or_introl (lookup_delete_eq _ _))).
    reflexivity.
  - apply Hreload.
  - intros Hauth. rewrite Hauth. reflexivity.
  - rewrite render_falsy_token; [rewrite (proj1 Hreload); reflexivity|].
    rewrite (proj2 Hreload). reflexivity.
Qed.

Lemma logout_ends_session_witness :
  App.renderContent
    (appState (App.logout tt (session_world "tok" "admin@example.com")).2)
  = App.ScreenLogin.
Proof.
  exact (proj1 (proj2 (proj2 (proj2 (proj2 (proj2 (proj2
           (logout_ends_session (server_always (mkResponse 200 "OK" (Ok VNull)))
              (session_world "tok" "admin@example.com")))))))) eq_refl).
Defined.

(** ** Login: the verify response *)

Lemma renderContent_login_not_loading a :
  App.renderContent a = App.ScreenLogin -> isAuthLoading a = false.
Proof.
  unfold App.renderContent. destruct (isAuthLoading a); [discriminate|reflexivity].
Qed.

Lemma renderContent_login_falsy a :
  isAuthLoading a = false ->
  truthy (token a) = false ->
  App.renderContent a = App.ScreenLogin.
Proof.
  intros Hl Ht. unfold App.renderContent. rewrite Hl, Ht. reflexivity.
Qed.

(** X8.  When the verify call succeeds with a body whose [access_token]
    is missing or falsy, the handler stores the text of that value under
    jwt_token (the string "undefined" when the key is missing), puts the
    value in the token state and sets the success message; the login form
    stays on the screen. *)
Theorem verify_without_access_token env s w data v :
  App.renderContent (appState w) = App.ScreenLogin ->
  Login.isLoading s = false ->
  Login.otpMode s = true ->
  String.length (Login.otp s) = 6%nat ->
  call_outcome env w (otp_verify_call (Login.email s) (Login.otp s)) = Ok data ->
  get_field data "access_token" = Ok v ->
  truthy v = false ->
  let w' := (App.login_event env Login.ClickVerify s w).2 in
  localStorage w' !! "jwt_token" = Some (ToString v)
  /\ token (appState w') = v
  /\ message (appState w')
     = mkMessage "success" "Access granted. Redirecting to Dashboard..."
  /\ App.renderContent (appState w') = App.ScreenLogin
  /\ App.render (appState w') = Ok App.ScreenLogin.
Proof.
  intros Hscreen Hidle Hmode Hlen Hq Hfield Hfalsy w'.
  pose proof (renderContent_login_not_loading _ Hscreen) as Hauth.
  set (done := Login.mk (Login.email s) (Login.otpMode s) (Login.otp s) false).
  set (m := mkMessage "success" "Access granted. Redirecting to Dashboard...").
  set (w1 := world_setMessage m
               (with_app (put_memberEmail (VStr (Login.email s)))
                  (with_app (put_token v)
                     (with_localStorage (<["jwt_token" := ToString v]>)
                        (sent (otp_verify_call (Login.email s) (Login.otp s)) w))))).
  assert (Hd : Login.dispatch env Login.ClickVerify s w = (Ok tt, done, w1)).
  { unfold Login.dispatch. run. rewrite Hidle, Hmode.
    rewrite (handleVerifyOtp_run env s w Hlen), Hq, Hfield. reflexivity. }
  assert (Happ : appState w1
                 = mkApp v (currentPage (appState w)) (VStr (Login.email s)) m
                     (isAuthLoading (appState w))).
  { unfold w1. rewrite app_world_setMessage. reflexivity. }
  assert (Hst : localStorage w1 !! "jwt_token" = Some (ToString v)).
  { unfold w1. rewrite localStorage_world_setMessage.
    cbn [with_app with_localStorage localStorage]. apply lookup_insert_eq. }
  unfold w'. rewrite (login_event_run env _ s w done w1 Hscreen Hd).
  rewrite (render_falsy_token (appState w1)) by (rewrite Happ; exact Hfalsy).
  cbn [snd].
  destruct (App.deps_changed _ _);
    cbn [with_app localStorage appState];
    rewrite ?route_effect_token, Happ; cbn [token message];
    (split; [exact Hst|]); (split; [reflexivity|]).
  - split.
    + unfold App.route_effect. cbn [isAuthLoading]. rewrite Hauth. cbn [negb token].
      rewrite Hfalsy. reflexivity.
    + assert (Hscreen' : App.renderContent
                           (App.route_effect
                              (mkApp v (currentPage (appState w))
                                 (VStr (Login.email s)) m
                                 (isAuthLoading (appState w)))) = App.ScreenLogin).
      { apply renderContent_route_login; [exact Hauth|].
        cbn [token]. rewrite Hfalsy. reflexivity. }
      split; [exact Hscreen'|].
      rewrite render_falsy_token; [rewrite Hscreen'; reflexivity|].
      rewrite route_effect_token. exact Hfalsy.
  - split; [reflexivity|].
    assert (Hscreen' : App.renderContent
                         (mkApp v (currentPage (appState w))
                            (VStr (Login.email s)) m
                            (isAuthLoading (appState w))) = App.ScreenLogin).
    { apply renderContent_login_falsy; [exact Hauth|exact Hfalsy]. }
    split; [exact Hscreen'|].
    rewrite render_falsy_token; [rewrite Hscreen'; reflexivity|exact Hfalsy].
Qed.

Lemma verify_without_access_token_witness :
  let env := server_always (mkResponse 200 "OK" (Ok (VObj [("ok", VBool true)]))) in
  let s := Login.mk "admin@example.com" true "123456" false in
  localStorage (App.login_event env Login.ClickVerify s empty_world).2
    !! "jwt_token" = Some "undefined".
Proof.
  intros env s.
  exact (proj1 (verify_without_access_token env s empty_world
                  (VObj [("ok", VBool true)]) VUndefined
                  eq_refl eq_refl eq_refl eq_refl eq_refl eq_refl eq_refl)).
Defined.

(** X9.  When the verify call is answered with a 204, nobody is logged
    in: the call gives [null], reading [access_token] throws, the [catch]
    sets an error message, and storage, the token and the member e-mail
    are left as they were; the login form stays on the screen. *)
Theorem verify_empty_response env s w response :
  App.renderContent (appState w) = App.ScreenLogin ->
  Login.isLoading s = false ->
  Login.otpMode s = true ->
  String.length (Login.otp s) = 6%nat ->
  net env (requests w ++ [otp_verify_call (Login.email s) (Login.otp s)])
  = Ok response ->
  status response = 204 ->
  let w' := (App.login_event env Login.ClickVerify s w).2 in
  localStorage w' = localStorage w
  /\ token (appState w') = token (appState w)
  /\ memberEmail (appState w') = memberEmail (appState w)
  /\ type (message (appState w')) = "error"
  /\ App.renderContent (appState w') = App.ScreenLogin
  /\ (truthy (token (appState w)) = false ->
      App.render (appState w') = Ok App.ScreenLogin).
Proof.
  intros Hscreen Hidle Hmode Hlen Hnet H204 w'.
  set (q := otp_verify_call (Login.email s) (Login.otp s)) in *.
  assert (Hq : call_outcome env w q = Ok VNull).
  { unfold call_outcome. rewrite Hnet. cbn [settle_pending].
    unfold apiCall_settle. rewrite H204. reflexivity. }
  set (done := Login.mk (Login.email s) (Login.otpMode s) (Login.otp s) false).
  set (m := mkMessage "error" (Exn.message (TypeError_read VNull "access_token"))).
  assert (Hd : Login.dispatch env Login.ClickVerify s w
               = (Ok tt, done, world_setMessage m (sent q w))).
  { unfold Login.dispatch. run. rewrite Hidle, Hmode.
    rewrite (handleVerifyOtp_run env s w Hlen). fold q. rewrite Hq. reflexivity. }
  assert (Happ : appState (world_setMessage m (sent q w))
                 = put_message m (appState w)).
  { rewrite app_world_setMessage. reflexivity. }
  assert (Hsame : App.deps_changed (appState w)
                    (appState (world_setMessage m (sent q w))) = false).
  { rewrite Happ. unfold App.deps_changed. cbn [put_message token memberEmail
      isAuthLoading]. rewrite !strict_eq_refl, eqb_reflx. reflexivity. }
  assert (Hw' : w' = world_setMessage m (sent q w)).
  { unfold w'. rewrite (login_event_run env _ s w done _ Hscreen Hd).
    destruct (App.render _); [rewrite Hsame|]; reflexivity. }
  rewrite Hw', Happ, localStorage_world_setMessage.
  assert (Hscreen' : App.renderContent (put_message m (appState w))
                     = App.ScreenLogin).
  { unfold App.renderContent in *. cbn [put_message isAuthLoading token
      memberEmail currentPage]. exact Hscreen. }
  repeat split; [exact Hscreen'|].
  intros Hfalsy. rewrite render_falsy_token; [rewrite Hscreen'; reflexivity|].
  exact Hfalsy.
Qed.

Lemma verify_empty_response_witness :
  let env := server_always (mkResponse 204 "No Content" (Ok VNull)) in
  let s := Login.mk "admin@example.com" true "123456" false in
  localStorage (App.login_event env Login.ClickVerify s empty_world).2 = ∅.
Proof.
  intros env s.
  exact (proj1 (verify_empty_response env s empty_world
                  (mkResponse 204 "No Content" (Ok VNull))
                  eq_refl eq_refl eq_refl eq_refl eq_refl eq_refl)).
Defined.



(** ** Dashboard: the upload *)

Lemma handleGenerateBills_run env s w f :
  Dashboard.file s = Some f ->
  let q := generate_call f (token (appState w)) in
  Dashboard.handleGenerateBills env s w
  = match call_outcome env w q with
    | Ok data =>
        match get_field data "notifications_ready" with
        | Ok ready =>
            (Ok tt, Dashboard.mk None false data,
             world_setMessage
               (mkMessage "success"
                  ("Processing complete. " +:+ ToString ready +:+
                   " notifications sent via Telegram in background."))
               (sent q w))
        | Throw e =>
            (Ok tt, Dashboard.mk (Some f) false data,
             world_setMessage (mkMessage "error" (Exn.message e)) (sent q w))
        end
    | Throw e =>
        (Ok tt, Dashboard.mk (Some f) false (Dashboard.billPreview s),
         world_setMessage (mkMessage "error" (Exn.message e)) (sent q w))
    end.
Proof.
  intros Hf. unfold Dashboard.handleGenerateBills, generate_call. run.
  rewrite Hf. run. rewrite apiCall_run.
  destruct (call_outcome _ _ _) as [data|e]; run; [|rewrite Hf; reflexivity].
  destruct (get_field data "notifications_ready"); run;
    rewrite ?Hf; reflexivity.
Qed.





(** ** The banner: the delay *)

(** X13.  The banner's delay restarts with every message, as long as no
    timeout of an earlier banner is left pending (see X21).  A message
    with a non-empty text set at some time is still the message at any
    time before 5000 ms have passed; if another such message is set
    before that, the first timeout is cancelled: the second message stays
    until 5000 ms after it was set, and is cleared from then on. *)
Theorem banner_delay_restarts m1 m2 w t2 :
  text m1 <> "" ->
  text m2 <> "" ->
  stale w = [] ->
  now w <= t2 ->
  t2 < now w + BANNER_DELAY ->
  let w1 := world_setMessage m1 w in
  let w2 := world_setMessage m2 (advance t2 w1) in
  message (appState (advance t2 w1)) = m1
  /\ (forall t, t < t2 + BANNER_DELAY -> message (appState (advance t w2)) = m2)
  /\ (forall t, t2 + BANNER_DELAY <= t ->
        message (appState (advance t w2)) = no_message).
Proof.
  intros H1 H2 Hstale Hle Hlt w1 w2.
  assert (Hw1 : w1 = with_timer (Some (now w + BANNER_DELAY))
                       (with_app (put_message m1) w)).
  { apply world_setMessage_text, H1. }
  assert (Ha : advance t2 w1 = with_now t2 w1).
  { rewrite advance_before; rewrite Hw1; cbn [with_timer with_app now timer stale].
    - rewrite Z.max_r by exact Hle. reflexivity.
    - intros d [= <-]. lia.
    - rewrite Hstale. constructor. }
  assert (Hw2 : w2 = with_timer (Some (t2 + BANNER_DELAY))
                       (with_app (put_message m2) (with_now t2 w1))).
  { unfold w2. rewrite Ha, (world_setMessage_text m2 _ H2). reflexivity. }
  split; [rewrite Ha, Hw1; reflexivity|]. split.
  - intros t Ht. rewrite advance_before; rewrite Hw2, Hw1;
      cbn [with_timer with_app with_now now timer stale appState message
           put_message].
    + reflexivity.
    + intros d [= <-]. unfold BANNER_DELAY in *. lia.
    + rewrite Hstale. constructor.
  - intros t Ht. apply (advance_due t w2 (t2 + BANNER_DELAY)).
    + lia.
    + left. rewrite Hw2. reflexivity.
Qed.

Lemma banner_delay_restarts_witness :
  let w2 := world_setMessage (mkMessage "error" "Email is required.")
              (advance 4000
                 (world_setMessage (mkMessage "success" "Saved.") empty_world)) in
  message (appState (advance 5000 w2)) = mkMessage "error" "Email is required."
  /\ message (appState (advance 9000 w2)) = no_message.
Proof.
  pose proof (banner_delay_restarts (mkMessage "success" "Saved.")
                (mkMessage "error" "Email is required.") empty_world 4000
                ltac:(discriminate) ltac:(discriminate) eq_refl
                ltac:(unfold BANNER_DELAY; cbn; lia)
                ltac:(unfold BANNER_DELAY; cbn; lia)) as (_ & Hkeep & Hclear).
  split; [apply Hkeep|apply Hclear]; unfold BANNER_DELAY; lia.
Defined.

(** X21.  A banner closed with its dismiss button leaves its timeout
    pending: the render with the empty text returns before the hook, so
    no clean-up cancels it.  A message set afterwards gets a timeout of
    its own, but it is cleared when the timeout of the dismissed banner
    comes due, before its own 5000 ms have passed. *)
Theorem dismissed_banner_timeout_stays m1 m2 w t1 t2 :
  text m1 <> "" ->
  text m2 <> "" ->
  stale w = [] ->
  now w <= t1 ->
  t1 <= t2 ->
  t2 < now w + BANNER_DELAY ->
  let w1 := world_setMessage m1 w in
  let w2 := Notification_dismiss (advance t1 w1) in
  let w3 := world_setMessage m2 (advance t2 w2) in
  message (appState w2) = no_message
  /\ timer w2 = None
  /\ stale w2 = [now w + BANNER_DELAY]
  /\ message (appState w3) = m2
  /\ timer w3 = Some (t2 + BANNER_DELAY)
  /\ stale w3 = [now w + BANNER_DELAY]
  /\ (forall t, t < now w + BANNER_DELAY ->
        message (appState (advance t w3)) = m2)
  /\ (forall t, now w + BANNER_DELAY <= t ->
        message (appState (advance t w3)) = no_message).
Proof.
  intros H1 H2 Hstale Hle1 Hle2 Hlt w1 w2 w3.
  assert (Hw1 : w1 = with_timer (Some (now w + BANNER_DELAY))
                       (with_app (put_message m1) w)).
  { apply world_setMessage_text, H1. }
  assert (Ha1 : advance t1 w1 = with_now t1 w1).
  { rewrite advance_before; rewrite Hw1; cbn [with_timer with_app now timer stale].
    - rewrite Z.max_r by exact Hle1. reflexivity.
    - intros d [= <-]. lia.
    - rewrite Hstale. constructor. }
  assert (Hw2 : w2 = with_timers None [now w + BANNER_DELAY]
                       (with_app (put_message no_message) (with_now t1 w1))).
  { unfold w2, Notification_dismiss. rewrite Ha1, Hw1.
    unfold world_setMessage, Notification_effect.
    cbn [with_timer with_timers with_app with_now now timer stale appState
         message put_message Notification text no_message truthy String.eqb negb].
    rewrite Hstale. reflexivity. }
  assert (Ha2 : advance t2 w2 = with_now t2 w2).
  { rewrite advance_before; rewrite Hw2, Hw1;
      cbn [with_timer with_timers with_app with_now now timer stale].
    - rewrite Z.max_r by exact Hle2. reflexivity.
    - discriminate.
    - constructor; [lia|constructor]. }
  assert (Hw3 : w3 = with_timer (Some (t2 + BANNER_DELAY))
                       (with_app (put_message m2) (with_now t2 w2))).
  { unfold w3. rewrite Ha2, (world_setMessage_text m2 _ H2). reflexivity. }
  split; [rewrite Hw2; reflexivity|].
  split; [rewrite Hw2; reflexivity|].
  split; [rewrite Hw2; reflexivity|].
  split; [rewrite Hw3; reflexivity|].
  split; [rewrite Hw3; reflexivity|].
  split; [rewrite Hw3, Hw2; reflexivity|].
  split.
  - intros t Ht. rewrite advance_before; rewrite Hw3, Hw2, Hw1;
      cbn [with_timer with_timers with_app with_now now timer stale appState
           message put_message].
    + reflexivity.
    + intros d [= <-]. unfold BANNER_DELAY in *. lia.
    + constructor; [lia|constructor].
  - intros t Ht. apply (advance_due t w3 (now w + BANNER_DELAY)).
    + lia.
    + right. rewrite Hw3, Hw2. left. reflexivity.
Qed.

Lemma dismissed_banner_timeout_stays_witness :
  let w1 := world_setMessage (mkMessage "success" "Saved.") empty_world in
  let w2 := Notification_dismiss (advance 1000 w1) in
  let w3 := world_setMessage (mkMessage "error" "Email is required.")
              (advance 4000 w2) in
  timer w3 = Some 9000
  /\ message (appState (advance 5000 w3)) = no_message.
Proof.
  pose proof (dismissed_banner_timeout_stays (mkMessage "success" "Saved.")
                (mkMessage "error" "Email is required.") empty_world 1000 4000
                ltac:(discriminate) ltac:(discriminate) eq_refl
                ltac:(cbn; lia) ltac:(lia)
                ltac:(unfold BANNER_DELAY; cbn; lia))
    as (_ & _ & _ & _ & Htimer & _ & _ & Hclear).
  split; [exact Htimer|apply Hclear; unfold BANNER_DELAY; cbn; lia].
Defined.

(** ** Settings: the list that the JSX builds *)





(** X19.  When the GET of the members endpoint succeeds with a body that
    is not an array (a 204 gives [null]), the list state holds that value
    with [isLoading] cleared, and the render that follows throws a
    TypeError, at the member count or at [members.map], before it reaches
    line 320. *)
Theorem members_not_an_array_breaks_render env s w data session :
  call_outcome env w (members_get_call (token (appState w))) = Ok data ->
  (forall l, data <> VArr l) ->
  let out := Settings.fetchMembers env s w in
  Settings.members out.1.2 = data
  /\ Settings.isLoading out.1.2 = false
  /\ exists e, Settings.render env out.1.2 session = Throw e
               /\ Exn.name e = "TypeError".
Proof.
  intros Hq Hdata out. unfold out. rewrite fetchMembers_run, Hq.
  cbn [fst snd Settings.members Settings.isLoading].
  split; [reflexivity|]. split; [reflexivity|].
  unfold Settings.render, Settings.controls.
  cbn [Settings.members Settings.isLoading].
  destruct data; try (eexists; split; reflexivity).
  exfalso. eapply Hdata. reflexivity.
Qed.

Lemma members_not_an_array_breaks_render_witness :
  let env := server_always (mkResponse 204 "No Content" (Ok VNull)) in
  exists e,
    Settings.render env
      (Settings.fetchMembers env Settings.initial
         (session_world "tok" "admin@example.com")).1.2
      (VStr "admin@example.com") = Throw e
    /\ Exn.name e = "TypeError".
Proof.
  intros env.
  exact (proj2 (proj2 (members_not_an_array_breaks_render env Settings.initial
                         (session_world "tok" "admin@example.com") VNull
                         (VStr "admin@example.com") eq_refl
                         ltac:(discriminate)))).
Defined.

(** ** Settings: the requests of a visit *)

Lemma members_get_call_ok tok : members_request_ok tok (members_get_call tok).
Proof.
  split; [reflexivity|]. split; [left; reflexivity|].
  apply authenticated_call.
Qed.

Lemma members_post_call_ok email phone tok :
  members_request_ok tok (members_post_call email phone tok).
Proof.
  split; [reflexivity|]. split; [right; reflexivity|].
  apply authenticated_call.
Qed.

Lemma members_requests_step_idle s w s' :
  members_requests_step s w (Ok tt, s', w).
Proof.
  split; [reflexivity|]. exists []. split; [symmetry; apply app_nil_r|].
  constructor.
Qed.

Lemma members_requests_step_setMessage s w s' m :
  members_requests_step s w (Ok tt, s', world_setMessage m w).
Proof.
  unfold members_requests_step. cbn [fst snd].
  split; [apply token_world_setMessage|]. exists [].
  rewrite requests_world_setMessage. split; [symmetry; apply app_nil_r|].
  constructor.
Qed.

Lemma fetchMembers_requests env s w :
  members_requests_step s w (Settings.fetchMembers env s w).
Proof.
  rewrite fetchMembers_run. unfold members_requests_step.
  destruct (call_outcome _ _ _); cbn [fst snd];
    (split;
     [rewrite ?token_world_setMessage; reflexivity
     |exists [members_get_call (token (appState w))];
      rewrite ?requests_world_setMessage, requests_sent;
      split; [reflexivity|];
      constructor; [apply members_get_call_ok|constructor]]).
Qed.

Lemma handleAddMember_requests env s w :
  members_requests_step s w (Settings.handleAddMember env s w).
Proof.
  destruct (String.eqb_spec (Settings.newEmail s) "") as [Hempty|Hne].
  - unfold Settings.handleAddMember. run. rewrite Hempty. run.
    apply members_requests_step_setMessage.
  - rewrite (handleAddMember_run env s w Hne). unfold members_requests_step.
    destruct (call_outcome env w _) as [d|e].
    + destruct (call_outcome env _ _) as [data|e]; cbn [fst snd];
        (split;
         [rewrite ?token_world_setMessage; cbn [sent with_requests appState];
          rewrite ?token_world_setMessage; reflexivity
         |exists [members_post_call (Settings.newEmail s) (Settings.newPhone s)
                    (token (appState w));
                  members_get_call (token (appState w))];
          rewrite ?requests_world_setMessage, requests_sent,
            requests_world_setMessage, requests_sent, <- app_assoc;
          split; [reflexivity|];
          constructor; [apply members_post_call_ok|];
          constructor; [apply members_get_call_ok|constructor]]).
    + cbn [fst snd]. split; [rewrite token_world_setMessage; reflexivity|].
      exists [members_post_call (Settings.newEmail s) (Settings.newPhone s)
                (token (appState w))]. rewrite requests_world_setMessage, requests_sent.
      split; [reflexivity|].
      constructor; [apply members_post_call_ok|constructor].
Qed.

Lemma dispatch_requests env e s w :
  members_requests_step s w (Settings.dispatch env e s w).
Proof.
  unfold Settings.dispatch. run.
  destruct (Settings.controls env s _) as [view|err] eqn:Hview;
    [|apply members_requests_step_idle].
  destruct e as [v|v| |i].
  - destruct (Settings.view_inputs_disabled view);
      apply members_requests_step_idle.
  - destruct (Settings.view_inputs_disabled view);
      apply members_requests_step_idle.
  - destruct (Settings.view_add_disabled view);
      [apply members_requests_step_idle|apply handleAddMember_requests].
  - destruct (Settings.view_rows view !! i) as [row|] eqn:Hrow;
      [|apply members_requests_step_idle].
    destruct (Settings.row_remove row) as [h|] eqn:Hh;
      [|apply members_requests_step_idle].
    assert (Hcall : exists l memberId memberEmail,
               h = Settings.handleRemoveMember env l memberId memberEmail).
    { unfold Settings.controls in Hview.
      destruct (Settings.members s) as [| | | | |l|]; try discriminate;
        destruct (Settings.isLoading s);
        try discriminate;
        try (injection Hview as <-; destruct i; discriminate).
      destruct (Settings.map_result _ l) as [rows|] eqn:Hrows; [|discriminate].
      injection Hview as <-. cbn [Settings.view_rows] in Hrow.
      destruct (map_result_lookup _ _ _ _ _ Hrows Hrow) as (x & _ & Hx).
      destruct (render_row_remove _ _ _ _ _ _ Hx Hh) as (a & b & ->). eauto. }
    destruct Hcall as (l & a & b & ->).
    rewrite handleRemoveMember_sends_nothing.
    apply members_requests_step_setMessage.
Qed.

Lemma members_requests_step_trans s w s1 w1 out :
  members_requests_step s w (Ok tt, s1, w1) ->
  members_requests_step s1 w1 out ->
  members_requests_step s w out.
Proof.
  intros [Htok1 (extra1 & Hlog1 & Hok1)] [Htok2 (extra2 & Hlog2 & Hok2)].
  cbn [fst snd] in *. split; [congruence|].
  exists (extra1 ++ extra2). split.
  - rewrite Hlog2, Hlog1, app_assoc. reflexivity.
  - apply Forall_app. split; [exact Hok1|]. rewrite <- Htok1. exact Hok2.
Qed.

Lemma settings_events_requests env events s w :
  members_requests_step s w (settings_events env events s w).
Proof.
  revert s w. induction events as [|e events IH]; intros s w.
  - apply members_requests_step_idle.
  - cbn [settings_events]. unfold mbind, M_bind.
    pose proof (dispatch_requests env e s w) as Hd.
    destruct (Settings.dispatch env e s w) as [[[[]|err] s1] w1]; [|exact Hd].
    apply (members_requests_step_trans s w s1 w1 _ Hd), IH.
Qed.

(** X15.  Through a visit of the settings page, whatever the events and
    the answers of the network, every request sent goes to the members
    endpoint itself with GET or POST and carries the bearer token of the
    session; no request with another method or to a member's own URL is
    sent. *)
Theorem settings_visit_requests env events w0 :
  let out := settings_visit env events Settings.initial w0 in
  exists extra,
    requests out.2 = requests w0 ++ extra
    /\ Forall (members_request_ok (token (appState w0))) extra.
Proof.
  intros out.
  assert (Hstep : members_requests_step Settings.initial w0 out).
  { unfold out, settings_visit, mbind, M_bind.
    pose proof (fetchMembers_requests env Settings.initial w0) as Hf.
    destruct (Settings.fetchMembers env Settings.initial w0)
      as [[[[]|err] s1] w1]; [|exact Hf].
    apply (members_requests_step_trans _ w0 s1 w1 _ Hf),
      settings_events_requests. }
  exact (proj2 Hstep).
Qed.

(** ** Settings: the add form *)

(** X18.  After [handleAddMember] with a non-empty e-mail: when the POST
    throws, the typed e-mail and phone and the member list are kept; when
    it succeeds, both fields are emptied, and the banner holds the success
    message naming the added e-mail if the re-fetch succeeds, and the
    load-failure message if the re-fetch throws. *)
Theorem add_member_form_fields env s w :
  Settings.newEmail s <> "" ->
  let post := members_post_call (Settings.newEmail s) (Settings.newPhone s)
                (token (appState w)) in
  let get := members_get_call (token (appState w)) in
  let out := Settings.handleAddMember env s w in
  match call_outcome env w post with
  | Throw e =>
      Settings.newEmail out.1.2 = Settings.newEmail s
      /\ Settings.newPhone out.1.2 = Settings.newPhone s
      /\ Settings.members out.1.2 = Settings.members s
  | Ok _ =>
      Settings.newEmail out.1.2 = ""
      /\ Settings.newPhone out.1.2 = ""
      /\ match settle_pending (net env (requests w ++ [post; get])) with
         | Ok _ =>
             message (appState out.2)
             = mkMessage "success"
                 ("Member " +:+ Settings.newEmail s +:+ " added successfully.")
         | Throw e =>
             message (appState out.2)
             = mkMessage "error"
                 ("Failed to load committee members: " +:+ Exn.message e)
         end
  end.
Proof.
  intros Hne post get out. unfold out.
  rewrite (handleAddMember_run env s w Hne). fold post get.
  destruct (call_outcome env w post) as [d|e]; [|repeat split].
  unfold call_outcome.
  rewrite requests_world_setMessage, requests_sent, <- app_assoc. cbn [app].
  destruct (settle_pending _) as [data|e];
    cbn [fst snd Settings.newEmail Settings.newPhone];
    (split; [reflexivity|]); (split; [reflexivity|]).
  - cbn [sent with_requests appState]. apply message_world_setMessage.
  - apply message_world_setMessage.
Qed.

Lemma add_member_form_fields_witness :
  let env := server_always (mkResponse 409 "Conflict"
               (Ok (VObj [("detail", VStr "Member already exists")]))) in
  let s := Settings.mk (VArr [member 1 "admin@example.com"])
             "admin@example.com" "555" false in
  let out := Settings.handleAddMember env s (session_world "tok" "admin@example.com") in
  Settings.newEmail out.1.2 = "admin@example.com"
  /\ Settings.newPhone out.1.2 = "555"
  /\ Settings.members out.1.2 = VArr [member 1 "admin@example.com"].
Proof.
  intros env s out.
  exact (add_member_form_fields env s (session_world "tok" "admin@example.com")
           ltac:(discriminate)).
Defined.

(** ** Registration: the requests of the form *)

Lemma handleRegister_run env s w :
  Registration.flatNo s <> "" ->
  Registration.chatId s <> "" ->
  let q := register_call (Registration.flatNo s) (Registration.chatId s) in
  Registration.handleRegister env s w
  = match call_outcome env w q with
    | Ok _ =>
        (Ok tt, Registration.mk "" "" false,
         world_setMessage
           (mkMessage "success"
              ("Success! Flat " +:+ Registration.flatNo s +:+
               " is now linked to receive bills via Telegram."))
           (sent q w))
    | Throw e =>
        (Ok tt,
         Registration.mk (Registration.flatNo s) (Registration.chatId s) false,
         world_setMessage
           (mkMessage "error"
              ("Registration failed: " +:+ Exn.message e +:+
               ". Ensure your Flat No is correct."))
           (sent q w))
    end.
Proof.
  intros Hf Hc. apply truthy_VStr in Hf, Hc. cbn [truthy] in Hf, Hc.
  unfold Registration.handleRegister, register_call. run.
  rewrite Hf, Hc. run. rewrite apiCall_run.
  destruct (call_outcome _ _ _); reflexivity.
Qed.

Lemma registration_dispatch_step toUpperCase env e s w :
  registration_inv toUpperCase s ->
  let out := Registration.dispatch toUpperCase env e s w in
  registration_inv toUpperCase out.1.2
  /\ exists extra,
       requests out.2 = requests w ++ extra
       /\ Forall (register_request_ok toUpperCase) extra.
Proof.
  intros Hinv out.
  assert (Hidle : forall s', registration_inv toUpperCase s' ->
            registration_inv toUpperCase s'
            /\ exists extra,
                 requests w = requests w ++ extra
                 /\ Forall (register_request_ok toUpperCase) extra).
  { intros s' Hs'. split; [exact Hs'|]. exists [].
    split; [symmetry; apply app_nil_r|constructor]. }
  pose proof Hinv as [Hdigits Hflat].
  unfold out, Registration.dispatch. run.
  destruct (Registration.isLoading s); [apply Hidle, Hinv|].
  destruct e as [v|v|]; run.
  - apply Hidle. split; [exact Hdigits|]. right. exists v. reflexivity.
  - apply Hidle. split; [apply strip_non_digits_digits|exact Hflat].
  - destruct (String.eqb_spec (Registration.flatNo s) "") as [Hf|Hf]; run;
      [apply Hidle, Hinv|].
    destruct (String.eqb_spec (Registration.chatId s) "") as [Hc|Hc]; run;
      [apply Hidle, Hinv|].
    rewrite (handleRegister_run env s w Hf Hc).
    assert (Hq : register_request_ok toUpperCase
                   (register_call (Registration.flatNo s) (Registration.chatId s))).
    { destruct Hflat as [Hempty|[typed Htyped]]; [contradiction|].
      exists typed, (Registration.chatId s). rewrite <- Htyped.
      repeat split; assumption. }
    destruct (call_outcome _ _ _); cbn [fst snd];
      rewrite requests_world_setMessage, requests_sent.
    + split.
      * split; [reflexivity|left; reflexivity].
      * eexists. split; [reflexivity|]. constructor; [exact Hq|constructor].
    + split.
      * exact Hinv.
      * eexists. split; [reflexivity|]. constructor; [exact Hq|constructor].
Qed.

Lemma registration_run_step toUpperCase env events s w :
  registration_inv toUpperCase s ->
  let out := Registration.run toUpperCase env events s w in
  registration_inv toUpperCase out.1.2
  /\ exists extra,
       requests out.2 = requests w ++ extra
       /\ Forall (register_request_ok toUpperCase) extra.
Proof.
  revert s w. induction events as [|e events IH]; intros s w Hinv.
  - split; [exact Hinv|]. exists []. split; [symmetry; apply app_nil_r|constructor].
  - cbn [Registration.run]. unfold mbind, M_bind.
    pose proof (registration_dispatch_step toUpperCase env e s w Hinv) as Hd.
    cbn zeta in Hd.
    destruct (Registration.dispatch toUpperCase env e s w)
      as [[[[]|err] s1] w1]; cbn [fst snd] in *; [|exact Hd].
    destruct Hd as [Hinv1 (extra1 & Hlog1 & Hok1)].
    destruct (IH s1 w1 Hinv1) as [Hinv2 (extra2 & Hlog2 & Hok2)].
    split; [exact Hinv2|].
    exists (extra1 ++ extra2). split.
    + rewrite Hlog2, Hlog1, app_assoc. reflexivity.
    + apply Forall_app. split; assumption.
Qed.

(** X17.  Through any events of the registration form, every request
    sent is a register call whose flat number is a non-empty upper-cased
    text and whose chat id is a non-empty string of digits, without an
    [Authorization] header; and the chat-id field holds digits only. *)
Theorem registration_requests_wellformed toUpperCase env events w0 :
  let out := Registration.run toUpperCase env events Registration.initial w0 in
  string_forall is_digit (Registration.chatId out.1.2) = true
  /\ exists extra,
       requests out.2 = requests w0 ++ extra
       /\ Forall (register_request_ok toUpperCase) extra.
Proof.
  intros out.
  assert (Hinit : registration_inv toUpperCase Registration.initial).
  { split; [reflexivity|left; reflexivity]. }
  destruct (registration_run_step toUpperCase env events Registration.initial
              w0 Hinit) as [[Hdigits _] Hreq].
  split; [exact Hdigits|exact Hreq].
Qed.

(** ** Every handler settles *)

(** X16.  No handler lets an exception escape, and none leaves its
    spinner on: each one returns normally, and either ends with
    [isLoading] cleared or has returned at its guard with the component
    state unchanged and nothing sent. *)
Theorem handlers_settle env :
  (forall s w,
     let out := Login.handleRequestOtp env s w in
     out.1.1 = Ok tt
     /\ (Login.isLoading out.1.2 = false
         \/ out.1.2 = s /\ requests out.2 = requests w))
  /\ (forall s w,
        let out := Login.handleVerifyOtp env s w in
        out.1.1 = Ok tt
        /\ (Login.isLoading out.1.2 = false
            \/ out.1.2 = s /\ requests out.2 = requests w))
  /\ (forall s w,
        let out := Settings.fetchMembers env s w in
        out.1.1 = Ok tt /\ Settings.isLoading out.1.2 = false)
  /\ (forall s w,
        let out := Settings.handleAddMember env s w in
        out.1.1 = Ok tt
        /\ (Settings.isLoading out.1.2 = false
            \/ out.1.2 = s /\ requests out.2 = requests w))
  /\ (forall memberId memberEmail s w,
        let out := Settings.handleRemoveMember_request env memberId memberEmail s w in
        out.1.1 = Ok tt /\ Settings.isLoading out.1.2 = false)
  /\ (forall s w,
        let out := Dashboard.handleGenerateBills env s w in
        out.1.1 = Ok tt
        /\ (Dashboard.isLoading out.1.2 = false
            \/ out.1.2 = s /\ requests out.2 = requests w))
  /\ (forall s w,
        let out := Registration.handleRegister env s w in
        out.1.1 = Ok tt
        /\ (Registration.isLoading out.1.2 = false
            \/ out.1.2 = s /\ requests out.2 = requests w)).
Proof.
  split; [|split; [|split; [|split; [|split; [|split]]]]].
  - intros s w out. unfold out.
    destruct (String.eqb_spec (Login.email s) "") as [Hempty|Hne].
    + unfold Login.handleRequestOtp. run. rewrite Hempty. run.
      split; [reflexivity|right].
      split; [reflexivity|apply requests_world_setMessage].
    + rewrite (handleRequestOtp_run env s w Hne).
      destruct (call_outcome _ _ _); split; try reflexivity; left; reflexivity.
  - intros s w out. unfold out.
    destruct (Nat.eq_dec (String.length (Login.otp s)) 6%nat) as [Hlen|Hlen].
    + rewrite (handleVerifyOtp_run env s w Hlen).
      destruct (call_outcome _ _ _) as [data|e];
        [destruct (get_field data "access_token")|];
        split; try reflexivity; left; reflexivity.
    + rewrite (handleVerifyOtp_blocked env s w Hlen).
      split; [reflexivity|right].
      split; [reflexivity|apply requests_world_setMessage].
  - intros s w out. unfold out. rewrite fetchMembers_run.
    destruct (call_outcome _ _ _); split; reflexivity.
  - intros s w out. unfold out.
    destruct (String.eqb_spec (Settings.newEmail s) "") as [Hempty|Hne].
    + unfold Settings.handleAddMember. run. rewrite Hempty. run.
      split; [reflexivity|right].
      split; [reflexivity|apply requests_world_setMessage].
    + rewrite (handleAddMember_run env s w Hne).
      destruct (call_outcome env w _);
        [destruct (call_outcome env _ _)|];
        split; try reflexivity; left; reflexivity.
  - intros memberId memberEmail s w out. unfold out.
    rewrite handleRemoveMember_request_run.
    destruct (call_outcome env w _);
      [destruct (call_outcome env _ _)|]; split; reflexivity.
  - intros s w out. unfold out.
    destruct (Dashboard.file s) as [f|] eqn:Hf.
    + rewrite (handleGenerateBills_run env s w f Hf).
      destruct (call_outcome _ _ _) as [data|e];
        [destruct (get_field data "notifications_ready")|];
        split; try reflexivity; left; reflexivity.
    + unfold Dashboard.handleGenerateBills. run. rewrite Hf. run.
      split; [reflexivity|right].
      split; [reflexivity|apply requests_world_setMessage].
  - intros s w out. unfold out.
    destruct (String.eqb_spec (Registration.flatNo s) "") as [Hf|Hf];
      [|destruct (String.eqb_spec (Registration.chatId s) "") as [Hc|Hc]].
    + unfold Registration.handleRegister. run. rewrite Hf. run.
      split; [reflexivity|right].
      split; [reflexivity|apply requests_world_setMessage].
    + unfold Registration.handleRegister. run. rewrite Hc. run.
      rewrite orb_true_r.
      split; [reflexivity|right].
      split; [reflexivity|apply requests_world_setMessage].
    + rewrite (handleRegister_run env s w Hf Hc).
      destruct (call_outcome _ _ _); split; try reflexivity; left; reflexivity.
Qed.

(** ** The digit filter *)

(** X20.  The filter of the code and chat-id fields leaves a text as it
    is exactly when the text consists of digits; so filtering twice is
    filtering once. *)
Theorem strip_non_digits_fixpoint v :
  (strip_non_digits v = v <-> string_forall is_digit v = true)
  /\ strip_non_digits (strip_non_digits v) = strip_non_digits v.
Proof.
  assert (Hfix : forall u, string_forall is_digit u = true ->
                           strip_non_digits u = u).
  { unfold strip_non_digits. induction u as [|c u IH]; cbn; [reflexivity|].
    intros Hu. apply andb_true_iff in Hu as [Hc Hu]. rewrite Hc, (IH Hu).
    reflexivity. }
  split; [split|].
  - intros Heq. rewrite <- Heq. apply strip_non_digits_digits.
  - apply Hfix.
  - apply Hfix, strip_non_digits_digits.
Qed.
